(** * hand_tracking.py: heuristic fingertip estimation and gesture derivation

    A shallow embedding of [src/hand_tracking.py] and the properties of its
    two detection backends ([MediaPipeHandTracker], [OpenCVHandTracker]) and
    of the per-hand normalisation loop of [main].

    Conventions of the embedding.
    - Pixel coordinates are integers ([Z]).  In the heuristic backend they
      are numpy [int32] values read off a mask, so they lie in
      [0, w) x [0, h) and their differences never wrap.
    - The floats of the program that are distances are square roots of
      non-negative rationals, possibly divided by another such root.  They
      are represented exactly by their radicand (type [dist]); [dist2R]
      gives the real number they stand for.  Rounding of binary64 is not
      modelled.
    - The other floats (areas, moments, coordinates divided by the frame
      size) are rationals ([Q]).
    - The [cv2] functions are the fields of a record [cv2] that the
      heuristic backend takes as a parameter; what [mediapipe] finds in a
      frame is an argument of the landmark backend's [process]. *)

From Stdlib Require Import ZArith QArith Qreals Reals Lra Lia List Bool.
From Stdlib Require Import Sorted Permutation.
From Stdlib Require String Ascii DecimalString.
Import String.StringSyntax Ascii.AsciiSyntax.
Import ListNotations.
Delimit Scope string_scope with string.
Delimit Scope char_scope with char.

Local Open Scope Z_scope.

(** ** Points *)

Definition point : Type := (Z * Z)%type.

Definition px (p : point) : Z := fst p.
Definition py (p : point) : Z := snd p.

(** ** Distances: floats of the form [sqrt q] *)

Record dist : Type := Sqrt { radicand : Q }.

(** The real number a [dist] stands for. *)
Definition dist2R (d : dist) : R := sqrt (Q2R (radicand d)).

(** All values the program builds have a non-negative radicand. *)
Definition dist_wf (d : dist) : Prop := (0 <= radicand d)%Q.

(** [(n) ** 0.5] for an integer [n]. *)
Definition sqrt_Z (n : Z) : dist := Sqrt (inject_Z n).

(** [np.hypot(dx, dy)], also written [(dx*dx + dy*dy) ** 0.5]. *)
Definition hypot (dx dy : Z) : dist := sqrt_Z (dx * dx + dy * dy).

(** A non-negative integer literal used where a float is expected. *)
Definition dist_of_Z (n : Z) : dist := Sqrt (inject_Z (n * n)).

(** The literal [0.0]. *)
Definition dist_zero : dist := Sqrt 0.

(** [a / b] for a non-zero [b]. *)
Definition dist_div (a b : dist) : dist := Sqrt (radicand a / radicand b).

(** [a < b] on rationals, as a boolean. *)
Definition Qltb (a b : Q) : bool := negb (Qle_bool b a).

(** [a < b] and [a > b] on distances. *)
Definition dist_ltb (a b : dist) : bool := Qltb (radicand a) (radicand b).
Definition dist_gtb (a b : dist) : bool := dist_ltb b a.

Definition dist_lt (a b : dist) : Prop := (radicand a < radicand b)%Q.
Definition dist_le (a b : dist) : Prop := (radicand a <= radicand b)%Q.

(** The Euclidean distance of two pixel positions, as a real number. *)
Definition euclid (p q : point) : R :=
  sqrt ((IZR (px p) - IZR (px q)) * (IZR (px p) - IZR (px q))
        + (IZR (py p) - IZR (py q)) * (IZR (py p) - IZR (py q))).

(** [int(x)] on a float: truncation towards zero. *)
Definition int_of_Q (q : Q) : Z := Z.quot (Qnum q) (Zpos (Qden q)).

(** ** Python's [sorted]

    [sorted(l, key=key)] is a stable sort: elements with equal keys keep
    their order in [l]; [reverse=True] keeps that too.  [before a b] says
    that key [a] goes strictly before key [b] ([<] for an ascending sort,
    [>] for [reverse=True]). *)

Section Sorted.
Context {A K : Type}.
Variable before : K -> K -> bool.
Variable key : A -> K.

Fixpoint sorted_insert (x : A) (l : list A) : list A :=
  match l with
  | [] => [x]
  | y :: l' =>
      if before (key y) (key x) then y :: sorted_insert x l'
      else x :: y :: l'
  end.

Fixpoint sorted (l : list A) : list A :=
  match l with
  | [] => []
  | x :: l' => sorted_insert x (sorted l')
  end.

(** [x] does not come after [y]. *)
Definition not_after (x y : A) : Prop := before (key y) (key x) = false.
End Sorted.

(** ** Exceptions

    [None] stands for a raised exception ([IndexError] on a list index out
    of range). *)

Definition bind {A B : Type} (m : option A) (f : A -> option B) : option B :=
  match m with
  | Some a => f a
  | None => None
  end.

Notation "x <- m ;; k" := (bind m (fun x => k))
  (at level 61, m at next level, right associativity).

(** [l[i]] for [i >= 0], and [l[-1]]. *)
Definition getitem {A : Type} (l : list A) (i : nat) : option A := nth_error l i.
Definition getlast {A : Type} (l : list A) : option A :=
  nth_error l (length l - 1).

(** ** Data model *)

Inductive finger : Type := thumb | index | middle | ring | pinky.

Definition finger_eqb (a b : finger) : bool :=
  match a, b with
  | thumb, thumb | index, index | middle, middle
  | ring, ring | pinky, pinky => true
  | _, _ => false
  end.

Inductive Side : Type := left | right.

(** A [dict] keyed by finger names: the items in insertion order. *)
Definition dict (V : Type) : Type := list (finger * V).

(** [k in d] and [d[k]]. *)
Fixpoint dict_get {V : Type} (k : finger) (d : dict V) : option V :=
  match d with
  | [] => None
  | (k', v) :: d' => if finger_eqb k k' then Some v else dict_get k d'
  end.

(** [d[k] = v]: an existing key keeps its position, a new one goes last. *)
Fixpoint dict_set {V : Type} (k : finger) (v : V) (d : dict V) : dict V :=
  match d with
  | [] => [(k, v)]
  | (k', v') :: d' =>
      if finger_eqb k k' then (k', v) :: d' else (k', v') :: dict_set k v d'
  end.

Definition keys {V : Type} (d : dict V) : list finger := map fst d.

(** The [info] dictionary of both backends.  A key that a backend does not
    set, or sets to [None], is [None] here. *)
Record HandInfo : Type := mkHandInfo {
  detected : bool;
  landmarks : option (list point);
  center : option point;
  fingertips : list point;
  fingertips_named : option (dict point);
  index_tip : option point;
  thumb_tip : option point;
  distance_index_thumb : dist;
  hand_size_norm : option dist
}.

(** The [ninfo] dictionary of [main]: a copy of [info] and the derived keys. *)
Record NormalizedHandInfo : Type := mkNormalizedHandInfo {
  info : HandInfo;
  index_norm : option (Q * Q);
  thumb_norm : option (Q * Q);
  finger_dist_norm : option (dict dist);
  distance_norm : dist;
  pinch_finger : option finger;
  pinch_distance_norm : option dist;
  side : option Side
}.

(** [frame.shape]: height and width of a frame, both positive ([cv2.flip]
    and [cv2.cvtColor] reject an empty frame before any of this code runs). *)
Definition frame_diag (h w : positive) : dist :=
  sqrt_Z (Zpos w * Zpos w + Zpos h * Zpos h).

(** ** The landmark backend *)

Module MediaPipeHandTracker.

(** [pts = [(int(l.x * w), int(l.y * h)) for l in lm.landmark]] *)
Definition pts_of (landmark : list (Q * Q)) (h w : positive) : list point :=
  map (fun l => (int_of_Q (fst l * inject_Z (Zpos w)),
                 int_of_Q (snd l * inject_Z (Zpos h)))) landmark.

(** The body of the loop over [results.multi_hand_landmarks]. *)
Definition hand_info (pts : list point) (h w : positive) : option HandInfo :=
  thumb_tip' <- getitem pts 4 ;;
  index_tip' <- getitem pts 8 ;;
  p12 <- getitem pts 12 ;;
  p16 <- getitem pts 16 ;;
  p20 <- getitem pts 20 ;;
  p0 <- getitem pts 0 ;;
  p9 <- getitem pts 9 ;;
  let fingertips' := [thumb_tip'; index_tip'; p12; p16; p20] in
  let named := [(thumb, thumb_tip'); (index, index_tip'); (middle, p12);
                (ring, p16); (pinky, p20)] in
  let center' := (int_of_Q (inject_Z (px p0 + px p9) / 2),
                  int_of_Q (inject_Z (py p0 + py p9) / 2)) in
  let dx := px index_tip' - px thumb_tip' in
  let dy := py index_tip' - py thumb_tip' in
  let wrist := p0 in
  let middle_tip := p12 in
  let hand_size_dx := px middle_tip - px wrist in
  let hand_size_dy := py middle_tip - py wrist in
  let hand_size_pixels :=
    sqrt_Z (hand_size_dx * hand_size_dx + hand_size_dy * hand_size_dy) in
  Some {| detected := true;
          landmarks := Some pts;
          center := Some center';
          fingertips := fingertips';
          fingertips_named := Some named;
          index_tip := Some index_tip';
          thumb_tip := Some thumb_tip';
          distance_index_thumb := sqrt_Z (dx * dx + dy * dy);
          hand_size_norm := Some (dist_div hand_size_pixels (frame_diag h w)) |}.

Fixpoint process_loop (lms : list (list (Q * Q))) (h w : positive)
    (hands_out : list HandInfo) : option (list HandInfo) :=
  match lms with
  | [] => Some hands_out
  | lm :: rest =>
      i <- hand_info (pts_of lm h w) h w ;;
      process_loop rest h w (hands_out ++ [i])
  end.

(** [process(frame)], given the frame's shape and what
    [self.hands.process] found in it. *)
Definition process (multi_hand_landmarks : list (list (Q * Q)))
    (h w : positive) : option (list HandInfo) :=
  process_loop multi_hand_landmarks h w [].

End MediaPipeHandTracker.

(** ** The heuristic backend *)

(** The three moments [cv2.moments] is asked for. *)
Record Moments : Type := mkMoments { m00 : Q; m10 : Q; m01 : Q }.

Inductive MorphOp : Type := MORPH_CLOSE | MORPH_OPEN.

(** The part of OpenCV the tracker calls. *)
Record cv2 : Type := mkCv2 {
  Frame : Type;
  Mask : Type;
  Contour : Type;
  shape : Frame -> positive * positive;
  cvtColor_BGR2HSV : Frame -> Frame;
  inRange : Frame -> Z * Z * Z -> Z * Z * Z -> Mask;
  bitwise_or : Mask -> Mask -> Mask;
  morphologyEx : Mask -> MorphOp -> nat -> Mask;
  GaussianBlur : Mask -> Mask;
  findContours : Mask -> list Contour;
  contourArea : Contour -> Q;
  moments : Contour -> Moments;
  convexHull : Contour -> list point
}.

Arguments shape {_} _.
Arguments cvtColor_BGR2HSV {_} _.
Arguments inRange {_} _ _ _.
Arguments bitwise_or {_} _ _.
Arguments morphologyEx {_} _ _ _.
Arguments GaussianBlur {_} _.
Arguments findContours {_} _.
Arguments contourArea {_} _.
Arguments moments {_} _.
Arguments convexHull {_} _.

(** [deque(maxlen=n).append(x)]: a full deque drops its oldest element. *)
Definition deque_append {A : Type} (maxlen : nat) (d : list A) (x : A) : list A :=
  if Nat.eqb (length d) maxlen then tl d ++ [x] else d ++ [x].

Module OpenCVHandTracker.

(** The tracker object: [self.history], a [deque(maxlen=6)]. *)
Record t : Type := mk { history : list (list HandInfo) }.

Definition maxlen : nat := 6.

(** [__init__] *)
Definition init : t := {| history := [] |}.

(** The minimal area of a hand blob and the minimal separation of two
    fingertips, as written in the source. *)
Definition min_area : Q := 2000.
Definition min_sep : Z := 25.

(** [np.hypot(p[0]-q[0], p[1]-q[1]) > 25] *)
Definition apart (p q : point) : bool :=
  dist_gtb (hypot (px p - px q) (py p - py q)) (dist_of_Z min_sep).

(** One round of the loop over [hull_sorted], before the test for [break]. *)
Definition tips_step (tips : list point) (p : point) : list point :=
  match tips with
  | [] => tips ++ [p]
  | _ :: _ => if forallb (apart p) tips then tips ++ [p] else tips
  end.

Fixpoint tips_loop (hull_sorted : list point) (tips : list point) : list point :=
  match hull_sorted with
  | [] => tips
  | p :: rest =>
      let tips' := tips_step tips p in
      if Nat.leb 5 (length tips') then tips' else tips_loop rest tips'
  end.

Section WithCv2.
Variable cv : cv2.

Definition _skin_mask (frame : Frame cv) : Mask cv :=
  let hsv := cvtColor_BGR2HSV frame in
  let m1 := inRange hsv (0, 20, 70) (20, 255, 255) in
  let m2 := inRange hsv (170, 20, 70) (180, 255, 255) in
  let mask := bitwise_or m1 m2 in
  let mask := morphologyEx mask MORPH_CLOSE 2 in
  let mask := morphologyEx mask MORPH_OPEN 1 in
  GaussianBlur mask.

Definition _extract_hand_info_from_contour (c : Contour cv)
    (frame_shape : positive * positive) : option HandInfo :=
  let '(h, w) := frame_shape in
  let M := moments c in
  let center' :=
    if negb (Qeq_bool (m00 M) 0)
    then (int_of_Q (m10 M / m00 M), int_of_Q (m01 M / m00 M))
    else (Zpos w / 2, Zpos h / 2) in
  let hull_pts := convexHull c in
  let hull_sorted := sorted Z.ltb py hull_pts in
  let tips := tips_loop hull_sorted [] in
  if Nat.leb 2 (length tips) then
    let topk := firstn 3 tips in
    let topk_sorted_x := sorted Z.ltb px topk in
    thumb_tip' <- getitem topk_sorted_x 0 ;;
    index_tip' <- getlast topk_sorted_x ;;
    let dx := px index_tip' - px thumb_tip' in
    let dy := py index_tip' - py thumb_tip' in
    Some {| detected := true;
            landmarks := None;
            center := Some center';
            fingertips := tips;
            fingertips_named := None;
            index_tip := Some index_tip';
            thumb_tip := Some thumb_tip';
            distance_index_thumb := hypot dx dy;
            hand_size_norm := None |}
  else
    Some {| detected := true;
            landmarks := None;
            center := Some center';
            fingertips := tips;
            fingertips_named := None;
            index_tip := None;
            thumb_tip := None;
            distance_index_thumb := dist_zero;
            hand_size_norm := None |}.

(** [cv2.contourArea(c) >= 2000], the negation of the test for
    [continue]. *)
Definition big_enough (c : Contour cv) : bool :=
  negb (Qltb (contourArea c) min_area).

(** [sorted(contours, key=cv2.contourArea, reverse=True)] *)
Definition contours_sorted (contours : list (Contour cv)) : list (Contour cv) :=
  sorted (fun a b => Qltb b a) contourArea contours.

(** The loop over [contours_sorted[:2]]. *)
Fixpoint process_loop (cs : list (Contour cv)) (hw : positive * positive)
    (hands_out : list HandInfo) : option (list HandInfo) :=
  match cs with
  | [] => Some hands_out
  | c :: rest =>
      let area := contourArea c in
      if Qltb area min_area then process_loop rest hw hands_out
      else
        i <- _extract_hand_info_from_contour c hw ;;
        process_loop rest hw (hands_out ++ [i])
  end.

(** [process(frame)]: the returned list and the tracker afterwards. *)
Definition process (self : t) (frame : Frame cv)
    : option (list HandInfo * t) :=
  let '(h, w) := shape frame in
  let mask := _skin_mask frame in
  let contours := findContours mask in
  match contours with
  | [] => Some ([], self)
  | _ :: _ =>
      hands_out <-
        process_loop (firstn 2 (contours_sorted contours)) (h, w) [] ;;
      Some (hands_out,
            {| history := deque_append maxlen (history self) hands_out |})
  end.
End WithCv2.

End OpenCVHandTracker.

(** ** The normalisation loop of [main] *)

Module Main.

(** [pinch_thresh = 0.05] *)
Definition pinch_thresh : dist := Sqrt (1 # 400).

(** The loop over [info['fingertips_named'].items()] that fills
    [dist_map]. *)
Fixpoint dist_map_loop (items : list (finger * point)) (thumb_pt : point)
    (diag : dist) (dist_map : dict dist) : dict dist :=
  match items with
  | [] => dist_map
  | (fname, pt) :: rest =>
      if finger_eqb fname thumb then dist_map_loop rest thumb_pt diag dist_map
      else
        let dx := px pt - px thumb_pt in
        let dy := py pt - py thumb_pt in
        let dist := sqrt_Z (dx * dx + dy * dy) in
        dist_map_loop rest thumb_pt diag
          (dict_set fname (dist_div dist diag) dist_map)
  end.

(** The closest finger below the threshold: [finger_min] after
    [if dist_map: ...].  [f_sorted[0]] cannot fail on a non-empty
    [dist_map]. *)
Definition finger_min (pinch_thresh : dist) (dist_map : dict dist)
    : option finger :=
  match dist_map with
  | [] => None
  | _ :: _ =>
      let f_sorted := sorted dist_ltb snd dist_map in
      match f_sorted with
      | [] => None
      | kv :: _ => if dist_ltb (snd kv) pinch_thresh then Some (fst kv) else None
      end
  end.

(** [(x / w, y / h)] *)
Definition norm_pt (p : point) (h w : positive) : Q * Q :=
  (inject_Z (px p) / inject_Z (Zpos w), inject_Z (py p) / inject_Z (Zpos h))%Q.

(** The body of the loop over [enumerate(hands)], with the pinch
    threshold as a parameter. *)
Definition ninfo_with (pinch_thresh : dist) (info : HandInfo) (h w : positive)
    : NormalizedHandInfo :=
  let diag := frame_diag h w in
  let index_norm' := option_map (fun p => norm_pt p h w) (index_tip info) in
  let thumb_norm' := option_map (fun p => norm_pt p h w) (thumb_tip info) in
  let thumb_pt := thumb_tip info in
  let '(finger_dist_norm', finger_min') :=
    match thumb_pt, fingertips_named info with
    | Some thumb_pt, Some ((_ :: _) as named) =>
        let dist_map := dist_map_loop named thumb_pt diag [] in
        (Some dist_map, finger_min pinch_thresh dist_map)
    | _, _ => (None, None)
    end in
  let distance_norm' := dist_div (distance_index_thumb info) diag in
  let pinch_distance_norm' :=
    match finger_min' with
    | Some f =>
        match finger_dist_norm' with
        | Some d => dict_get f d
        | None => None
        end
    | None => None
    end in
  let side' :=
    match center info with
    | Some (cx, cy) =>
        Some (if Qltb (inject_Z cx) (inject_Z (Zpos w) / 2) then left else right)
    | None => None
    end in
  {| info := info;
     index_norm := index_norm';
     thumb_norm := thumb_norm';
     finger_dist_norm := finger_dist_norm';
     distance_norm := distance_norm';
     pinch_finger := finger_min';
     pinch_distance_norm := pinch_distance_norm';
     side := side' |}.

Definition ninfo : HandInfo -> positive -> positive -> NormalizedHandInfo :=
  ninfo_with pinch_thresh.

(** [norm_hands] after the loop. *)
Definition norm_hands (hands : list HandInfo) (h w : positive)
    : list NormalizedHandInfo :=
  map (fun info => ninfo info h w) hands.

End Main.

(** ** The frame loop of [main] *)

Module Loop.

(** The calls [hands = tracker.process(frame)] of successive rounds of the
    [while True] loop, for the heuristic tracker: the lists returned, in
    order, and the tracker after the last round. *)
Fixpoint process_frames (cv : cv2) (tracker : OpenCVHandTracker.t)
    (frames : list (Frame cv))
    : option (list (list HandInfo) * OpenCVHandTracker.t) :=
  match frames with
  | [] => Some ([], tracker)
  | frame :: rest =>
      r <- OpenCVHandTracker.process cv tracker frame ;;
      rs <- process_frames cv (snd r) rest ;;
      Some (fst r :: fst rs, snd rs)
  end.

End Loop.

(** ** [draw_overlay] *)

Module Overlay.

(** The calls that draw on the frame, in the order they are made. *)
Inductive Draw : Type :=
| circle (center : point) (radius : Z) (color : Z * Z * Z) (thickness : Z)
| putText (text : String.string) (org : point) (fontScale : Q)
          (color : Z * Z * Z) (thickness : Z).

(** The keys of [fingertips_named] as Python strings. *)
Definition finger_name (f : finger) : String.string :=
  match f with
  | thumb => "thumb"
  | index => "index"
  | middle => "middle"
  | ring => "ring"
  | pinky => "pinky"
  end%string.

Definition finger_colors_right : dict (Z * Z * Z) :=
  [(index, (0, 0, 255)); (middle, (255, 0, 0)); (ring, (0, 165, 255));
   (pinky, (0, 255, 0)); (thumb, (255, 0, 255))].

Definition finger_colors_left : dict (Z * Z * Z) :=
  [(index, (240, 32, 160)); (middle, (0, 0, 0)); (ring, (42, 42, 128));
   (pinky, (0, 255, 255)); (thumb, (255, 0, 255))].

(** [d.get(k, default)] *)
Definition dict_get_default {V : Type} (k : finger) (d : dict V) (default : V) : V :=
  match dict_get k d with
  | Some v => v
  | None => default
  end.

(** [c.upper()] on an ASCII character. *)
Definition upper (c : Ascii.ascii) : Ascii.ascii :=
  let n := Ascii.nat_of_ascii c in
  if (Nat.leb 97 n && Nat.leb n 122)%bool then Ascii.ascii_of_nat (n - 32) else c.

(** [name[0].upper()]; [name[0]] raises on the empty string. *)
Definition initial (name : String.string) : option String.string :=
  match name with
  | String.EmptyString => None
  | String.String c _ => Some (String.String (upper c) String.EmptyString)
  end.

(** [str(n)] for a length. *)
Definition str_of_nat (n : nat) : String.string :=
  DecimalString.NilEmpty.string_of_uint (Nat.to_uint n).

(** The loop over [info['fingertips_named'].items()]. *)
Fixpoint draw_named (palette : dict (Z * Z * Z)) (items : list (finger * point))
    : option (list Draw) :=
  match items with
  | [] => Some []
  | (name, tip) :: rest =>
      label <- initial (finger_name name) ;;
      ds <- draw_named palette rest ;;
      Some (circle tip 7 (dict_get_default name palette (0, 200, 255)) (-1)
            :: putText label (px tip + 6, py tip - 6) 0.5 (255, 255, 255) 1
            :: ds)
  end.

(** One round of the loop over [enumerate(hands)]. *)
Definition draw_hand (hi : Z) (n : NormalizedHandInfo) : option (list Draw) :=
  let color_center := if hi =? 0 then (0, 200, 0) else (0, 150, 255) in
  let center' :=
    match center (info n) with
    | Some c => [circle c 8 color_center 2]
    | None => []
    end in
  tips <-
    match fingertips_named (info n) with
    | Some ((_ :: _) as named) =>
        let palette :=
          match side n with
          | Some right => finger_colors_right
          | _ => finger_colors_left
          end in
        draw_named palette named
    | _ => Some (map (fun tip => circle tip 6 (0, 200, 255) (-1))
                     (fingertips (info n)))
    end ;;
  let pinch :=
    match pinch_finger n with
    | Some f =>
        [putText (String.append "Pinch:" (finger_name f)) (10, 25 + 18 * hi)
                 0.55 (0, 255, 255) 2]
    | None => []
    end in
  Some (center' ++ tips ++ pinch).

Fixpoint draw_hands (hi : Z) (hands : list NormalizedHandInfo)
    : option (list Draw) :=
  match hands with
  | [] => Some []
  | n :: rest =>
      ds <- draw_hand hi n ;;
      ds' <- draw_hands (hi + 1) rest ;;
      Some (ds ++ ds')
  end.

(** [draw_overlay(frame, hands, backend_name=...)] on a frame of height [h]:
    what is drawn on the frame.  [hands] is [None] or a list. *)
Definition draw_overlay (h : positive) (hands : option (list NormalizedHandInfo))
    (backend_name : String.string) : option (list Draw) :=
  match hands with
  | None => Some []
  | Some hands =>
      ds <- draw_hands 0 hands ;;
      Some (ds ++
            [putText (String.append "Backend: "
                        (String.append backend_name
                           (String.append " | Hands: "
                              (str_of_nat (length hands)))))
                     (10, Zpos h - 10) 0.5 (230, 230, 230) 1])
  end.

End Overlay.

(** ** Keys, logging and streaming in [main] *)

Module MainLoop.

(** A row of [hand_log.csv]. *)
Inductive Row : Type :=
| Header (cols : list String.string)
| Data (timestamp : Q) (frame : Z) (hand_id : Z) (label : String.string)
       (x_norm y_norm : Q) (distance_norm : dist).

(** An element of [payload['hands']]. *)
Record HandPayload : Type := mkHandPayload {
  hand_id : Z;
  p_index : option (Q * Q);
  p_thumb : option (Q * Q);
  p_distance_norm : dist;
  p_side : option Side;
  p_pinch_finger : option finger;
  p_pinch_distance_norm : option dist;
  p_finger_dist_norm : dict dist;
  p_hand_size_norm : dist
}.

Record Payload : Type := mkPayload { p_t : Q; p_hands : list HandPayload }.

(** The variables of [main] that the keys, the log and the stream use.
    [csv_file] is [None] before the first [open], then [Some true] for an
    open file and [Some false] for a closed one; [hand_log] is the content
    of [hand_log.csv]; [ws_threads] counts the server threads started;
    [queued] holds the payloads appended to [broadcast_queue], in order.
    The dictionary [trails] is never written to and is left out. *)
Record State : Type := mkState {
  trails_enabled : bool;
  csv_logging : bool;
  csv_file : option bool;
  hand_log : list Row;
  websocket_enabled : bool;
  ws_threads : nat;
  queued : list Payload
}.

Definition header : Row :=
  Header ["timestamp"; "frame"; "hand_id"; "label"; "x_norm"; "y_norm";
          "distance_norm"]%string.

Definition start_csv (st : State) : State :=
  if csv_logging st then st
  else {| trails_enabled := trails_enabled st;
          csv_logging := true;
          csv_file := Some true;
          hand_log := hand_log st ++ [header];
          websocket_enabled := websocket_enabled st;
          ws_threads := ws_threads st;
          queued := queued st |}.

(** [csv_file.close()] sits in a [try]: without a file nothing happens. *)
Definition stop_csv (st : State) : State :=
  if negb (csv_logging st) then st
  else {| trails_enabled := trails_enabled st;
          csv_logging := false;
          csv_file := match csv_file st with
                      | Some _ => Some false
                      | None => None
                      end;
          hand_log := hand_log st;
          websocket_enabled := websocket_enabled st;
          ws_threads := ws_threads st;
          queued := queued st |}.

Definition start_ws_server (HAS_WEBSOCKETS : bool) (st : State) : State :=
  if negb HAS_WEBSOCKETS then st
  else if websocket_enabled st then st
  else {| trails_enabled := trails_enabled st;
          csv_logging := csv_logging st;
          csv_file := csv_file st;
          hand_log := hand_log st;
          websocket_enabled := true;
          ws_threads := S (ws_threads st);
          queued := queued st |}.

Definition stop_ws_server (st : State) : State :=
  {| trails_enabled := trails_enabled st;
     csv_logging := csv_logging st;
     csv_file := csv_file st;
     hand_log := hand_log st;
     websocket_enabled := false;
     ws_threads := ws_threads st;
     queued := queued st |}.

(** The state when the loop is entered: nothing is logged, and the server
    is started if the package is there. *)
Definition setup (HAS_WEBSOCKETS : bool) (hand_log0 : list Row) : State :=
  let st := {| trails_enabled := true;
               csv_logging := false;
               csv_file := None;
               hand_log := hand_log0;
               websocket_enabled := false;
               ws_threads := 0;
               queued := [] |} in
  if HAS_WEBSOCKETS then start_ws_server HAS_WEBSOCKETS st else st.

(** [key = cv2.waitKey(1) & 0xFF] and the chain of tests on it; the
    boolean is [true] for [break]. *)
Definition handle_key (HAS_WEBSOCKETS : bool) (st : State) (waitKey : Z)
    : bool * State :=
  let key := Z.land waitKey 255 in
  if (key =? 113) || (key =? 27) then (true, st)
  else if key =? 116 then
    (false,
     {| trails_enabled := negb (trails_enabled st);
        csv_logging := csv_logging st;
        csv_file := csv_file st;
        hand_log := hand_log st;
        websocket_enabled := websocket_enabled st;
        ws_threads := ws_threads st;
        queued := queued st |})
  else if key =? 99 then
    (false, if negb (csv_logging st) then start_csv st else stop_csv st)
  else if key =? 119 then
    (false,
     if negb (websocket_enabled st) then start_ws_server HAS_WEBSOCKETS st
     else stop_ws_server st)
  else (false, st).

(** The rows written for one hand: [index] first, then [thumb], each if
    the hand has the key. *)
Definition hand_rows (ts : Q) (frame_count hi : Z) (hinfo : NormalizedHandInfo)
    : list Row :=
  let row (label : String.string) (keypos : option (Q * Q)) :=
    match keypos with
    | Some (x, y) => [Data ts frame_count hi label x y (distance_norm hinfo)]
    | None => []
    end in
  row "index"%string (index_norm hinfo) ++ row "thumb"%string (thumb_norm hinfo).

Fixpoint csv_rows (ts : Q) (frame_count hi : Z) (norm_hands : list NormalizedHandInfo)
    : list Row :=
  match norm_hands with
  | [] => []
  | hinfo :: rest =>
      hand_rows ts frame_count hi hinfo ++ csv_rows ts frame_count (hi + 1) rest
  end.

Definition hand_payload (hi : Z) (hinfo : NormalizedHandInfo) : HandPayload :=
  {| hand_id := hi;
     p_index := index_norm hinfo;
     p_thumb := thumb_norm hinfo;
     p_distance_norm := distance_norm hinfo;
     p_side := side hinfo;
     p_pinch_finger := pinch_finger hinfo;
     p_pinch_distance_norm := pinch_distance_norm hinfo;
     p_finger_dist_norm := match finger_dist_norm hinfo with
                           | Some d => d
                           | None => []
                           end;
     p_hand_size_norm := match hand_size_norm (info hinfo) with
                         | Some v => v
                         | None => dist_zero
                         end |}.

Fixpoint payload_hands (hi : Z) (norm_hands : list NormalizedHandInfo)
    : list HandPayload :=
  match norm_hands with
  | [] => []
  | hinfo :: rest => hand_payload hi hinfo :: payload_hands (hi + 1) rest
  end.

(** What one round of the loop is given: the hands the tracker returned
    for the frame and the frame's shape, the value of [cv2.waitKey(1)],
    the value of [frame_count], the two readings of the clock, and whether
    a client is connected. *)
Record Round : Type := mkRound {
  r_hands : list HandInfo;
  r_h : positive;
  r_w : positive;
  r_waitKey : Z;
  r_frame_count : Z;
  r_ts : Q;
  r_t : Q;
  r_ws_clients : bool
}.

(** The part of a round after the key is handled: logging, then
    streaming. *)
Definition log_and_stream (HAS_WEBSOCKETS : bool) (st : State) (r : Round)
    : State :=
  let norm_hands := Main.norm_hands (r_hands r) (r_h r) (r_w r) in
  let hand_log' :=
    match csv_logging st, norm_hands with
    | true, _ :: _ =>
        hand_log st ++ csv_rows (r_ts r) (r_frame_count r) 0 norm_hands
    | _, _ => hand_log st
    end in
  let queued' :=
    if websocket_enabled st && HAS_WEBSOCKETS && r_ws_clients r
    then queued st ++ [{| p_t := r_t r; p_hands := payload_hands 0 norm_hands |}]
    else queued st in
  {| trails_enabled := trails_enabled st;
     csv_logging := csv_logging st;
     csv_file := csv_file st;
     hand_log := hand_log';
     websocket_enabled := websocket_enabled st;
     ws_threads := ws_threads st;
     queued := queued' |}.

(** The rounds of the [while True] loop, until a key breaks it or the
    camera gives no more frame. *)
Fixpoint loop (HAS_WEBSOCKETS : bool) (st : State) (rounds : list Round)
    : State :=
  match rounds with
  | [] => st
  | r :: rest =>
      let '(break, st') := handle_key HAS_WEBSOCKETS st (r_waitKey r) in
      if break then st'
      else loop HAS_WEBSOCKETS (log_and_stream HAS_WEBSOCKETS st' r) rest
  end.

(** The loop and the [finally] clause after it. *)
Definition main (HAS_WEBSOCKETS : bool) (hand_log0 : list Row)
    (rounds : list Round) : State :=
  stop_csv (loop HAS_WEBSOCKETS (setup HAS_WEBSOCKETS hand_log0) rounds).

End MainLoop.

(** ** Small inputs to run the definitions on *)

Module Toy.

(** Contours given by their area and hull; frames by their contours. *)
Record contour : Type :=
  mkContour { c_area : Q; c_moments : Moments; c_hull : list point }.

Definition cv : cv2 :=
  {| Frame := list contour;
     Mask := list contour;
     Contour := contour;
     shape := fun _ => (480%positive, 640%positive);
     cvtColor_BGR2HSV := fun f => f;
     inRange := fun f _ _ => f;
     bitwise_or := fun m _ => m;
     morphologyEx := fun m _ _ => m;
     GaussianBlur := fun m => m;
     findContours := fun m => m;
     contourArea := c_area;
     moments := c_moments;
     convexHull := c_hull |}.

Definition hand5 : contour :=
  {| c_area := 2500;
     c_moments := {| m00 := 2500; m10 := 350000; m01 := 400000 |};
     c_hull := [(100, 100); (180, 110); (140, 90); (220, 150); (60, 160);
                (141, 91); (150, 300)] |}.

Definition speck : contour :=
  {| c_area := 1999;
     c_moments := {| m00 := 0; m10 := 0; m01 := 0 |};
     c_hull := [(5, 5)] |}.

Definition blob : contour :=
  {| c_area := 2000;
     c_moments := {| m00 := 2000; m10 := 20000; m01 := 30000 |};
     c_hull := [(10, 10); (12, 11)] |}.

(** A region whose six hull points are all far from each other. *)
Definition spread : contour :=
  {| c_area := 9000;
     c_moments := {| m00 := 9000; m10 := 1800000; m01 := 1350000 |};
     c_hull := [(100, 200); (300, 200); (200, 100); (150, 120); (250, 130);
                (200, 260)] |}.

(** The 21 landmarks of a hand, in frame-relative coordinates. *)
Definition lm21 : list (Q * Q) :=
  Eval cbv in
    map (fun k => (Z.of_nat k # 32, (40 - Z.of_nat k) # 64)) (seq 0 21).

(** The named fingertips of a hand and the distance map [main] derives
    from them in a 640x480 frame, with the thumb tip at (300, 200). *)
Definition pinching_named : dict point :=
  [(thumb, (300, 200)); (index, (310, 195)); (middle, (340, 150));
   (ring, (360, 160)); (pinky, (380, 180))].

Definition pinching_dist_map : dict dist :=
  [(index, Sqrt (125 # 640000)); (middle, Sqrt (4100 # 640000));
   (ring, Sqrt (5200 # 640000)); (pinky, Sqrt (6800 # 640000))].

(** A hand with named fingertips, the index tip close to the thumb tip,
    centred on the vertical midline of a 640x480 frame. *)
Definition pinching : HandInfo :=
  {| detected := true;
     landmarks := None;
     center := Some (320, 240);
     fingertips := [(300, 200); (310, 195); (340, 150); (360, 160); (380, 180)];
     fingertips_named := Some pinching_named;
     index_tip := Some (310, 195);
     thumb_tip := Some (300, 200);
     distance_index_thumb := sqrt_Z 125;
     hand_size_norm := None |}.

(** The hand the landmark backend builds from [lm21] in a 640x480 frame,
    and its named fingertips. *)
Definition landmark_hand : HandInfo :=
  Eval cbv in
    match MediaPipeHandTracker.hand_info
            (MediaPipeHandTracker.pts_of lm21 480 640) 480 640 with
    | Some i => i
    | None => pinching
    end.

Definition landmark_named : dict point :=
  Eval cbv in
    match fingertips_named landmark_hand with
    | Some named => named
    | None => []
    end.
End Toy.

(** ** Vocabulary of the statements *)

(** [l1] is obtained from [l2] by deleting elements. *)
Inductive Subseq {A : Type} : list A -> list A -> Prop :=
| Subseq_nil : Subseq [] []
| Subseq_skip : forall x l1 l2, Subseq l1 l2 -> Subseq l1 (x :: l2)
| Subseq_keep : forall x l1 l2, Subseq l1 l2 -> Subseq (x :: l1) (x :: l2).

(** The fixed landmark indices of a hand of the landmark backend. *)
Definition landmark_mapping (pts : list point) (h w : positive) (i : HandInfo)
    : Prop :=
  let p := fun k => nth k pts (0, 0) in
  thumb_tip i = Some (p 4%nat) /\
  index_tip i = Some (p 8%nat) /\
  fingertips i = [p 4%nat; p 8%nat; p 12%nat; p 16%nat; p 20%nat] /\
  fingertips_named i =
    Some [(thumb, p 4%nat); (index, p 8%nat); (middle, p 12%nat);
          (ring, p 16%nat); (pinky, p 20%nat)] /\
  center i = Some (Z.quot (px (p 0%nat) + px (p 9%nat)) 2,
                   Z.quot (py (p 0%nat) + py (p 9%nat)) 2) /\
  exists v, hand_size_norm i = Some v /\
            dist2R v = (euclid (p 12%nat) (p 0%nat) / dist2R (frame_diag h w))%R.

(** No two positions of [l] hold points that are not
    [OpenCVHandTracker.apart]. *)
Definition separated (l : list point) : Prop :=
  forall a b p q, a <> b ->
    nth_error l a = Some p -> nth_error l b = Some q ->
    OpenCVHandTracker.apart p q = true.

(** [hull_sorted] and [topk_sorted_x] of a contour, as
    [_extract_hand_info_from_contour] computes them. *)
Definition hull_sorted (cv : cv2) (c : Contour cv) : list point :=
  sorted Z.ltb py (convexHull c).

Definition topk_sorted_x (tips : list point) : list point :=
  sorted Z.ltb px (firstn 3 tips).

(** [a] has at least the area of [b]. *)
Definition area_ge {cv : cv2} (a b : Contour cv) : Prop :=
  (contourArea b <= contourArea a)%Q.

(** The named fingers other than the thumb. *)
Definition non_thumb (f : finger) : bool := negb (finger_eqb f thumb).

(** The entry of [dist_map] for a named fingertip: its distance to the
    thumb tip over the frame diagonal. *)
Definition dist_entry (thumb_pt : point) (diag : dist) (kv : finger * point)
    : finger * dist :=
  let dx := px (snd kv) - px thumb_pt in
  let dy := py (snd kv) - py thumb_pt in
  (fst kv, dist_div (sqrt_Z (dx * dx + dy * dy)) diag).

(** The last [n] elements of a list. *)
Definition lastn {A : Type} (n : nat) (l : list A) : list A :=
  skipn (length l - n) l.

(** The frames in which [cv2.findContours] finds something. *)
Definition has_contours (cv : cv2) (frame : Frame cv) : bool :=
  match findContours (OpenCVHandTracker._skin_mask cv frame) with
  | [] => false
  | _ :: _ => true
  end.

(** The outputs of the frames that have contours, in order. *)
Definition outputs_with_contours (cv : cv2) (frames : list (Frame cv))
    (outs : list (list HandInfo)) : list (list HandInfo) :=
  map snd (filter (fun fo => has_contours cv (fst fo)) (combine frames outs)).

(** The shape of a hand of the landmark backend: five fingertips, the
    thumb and index tips among them and named, and their distance. *)
Definition landmark_hand_ok (i : HandInfo) : Prop :=
  detected i = true /\
  length (fingertips i) = 5%nat /\
  exists t x named,
    thumb_tip i = Some t /\ index_tip i = Some x /\
    In t (fingertips i) /\ In x (fingertips i) /\
    fingertips_named i = Some named /\
    dict_get thumb named = Some t /\ dict_get index named = Some x /\
    dist2R (distance_index_thumb i) = euclid x t.

(** Circles and texts among the drawing calls. *)
Definition is_circle (d : Overlay.Draw) : bool :=
  match d with
  | Overlay.circle _ _ _ _ => true
  | Overlay.putText _ _ _ _ _ => false
  end.

Definition is_text (d : Overlay.Draw) : bool := negb (is_circle d).

(** The fingertips [draw_overlay] marks for a hand: the named ones if
    there are any, the plain list otherwise. *)
Definition marked_tips (n : NormalizedHandInfo) : nat :=
  match fingertips_named (info n) with
  | Some ((_ :: _) as named) => length named
  | _ => length (fingertips (info n))
  end.

(** The log file is open exactly while [csv_logging] is set. *)
Definition csv_consistent (st : MainLoop.State) : Prop :=
  MainLoop.csv_logging st = true <-> MainLoop.csv_file st = Some true.

(** What has been appended to an initial log: nothing while logging was
    never on, else rows that start with a header. *)
Definition appended_since (hand_log0 : list MainLoop.Row) (st : MainLoop.State)
    : Prop :=
  (MainLoop.hand_log st = hand_log0 /\ MainLoop.csv_logging st = false) \/
  exists rest, MainLoop.hand_log st = hand_log0 ++ MainLoop.header :: rest.

Definition count_some {A : Type} (o : option A) : nat :=
  match o with
  | Some _ => 1
  | None => 0
  end.

(** The status line at the bottom of the frame. *)
Definition status_line (h : positive) (backend_name : String.string) (n : nat)
    : Overlay.Draw :=
  Overlay.putText
    (String.append "Backend: "
       (String.append backend_name
          (String.append " | Hands: " (Overlay.str_of_nat n))))
    (10, Zpos h - 10) 0.5 (230, 230, 230) 1.

(** What every round of the loop keeps. *)
Definition loop_invariant (hand_log0 : list MainLoop.Row) (st : MainLoop.State)
    : Prop :=
  csv_consistent st /\ appended_since hand_log0 st.

(** The stream has never been switched on. *)
Definition no_stream (st : MainLoop.State) : Prop :=
  MainLoop.websocket_enabled st = false /\
  MainLoop.ws_threads st = 0%nat /\
  MainLoop.queued st = [].

(** The pairwise test of [separated], as a computation. *)
Fixpoint all_apart (l : list point) : bool :=
  match l with
  | [] => true
  | p :: l' => forallb (OpenCVHandTracker.apart p) l' && all_apart l'
  end.

(** The hands the loop of [main] is given: those in a list returned by
    [tracker.process(frame)], for either tracker. *)
Definition tracker_hand (i : HandInfo) : Prop :=
  (exists multi_hand_landmarks h w hands,
     MediaPipeHandTracker.process multi_hand_landmarks h w = Some hands /\
     In i hands) \/
  (exists (cv : cv2) self (frame : Frame cv) hands self',
     OpenCVHandTracker.process cv self frame = Some (hands, self') /\
     In i hands).

(** What the overlay shows, said without the tables and loops of
    [draw_overlay]: the colour of the ring at the centre of a hand, the
    colour of a finger on each side, and the letter that labels it. *)
Definition center_color (hi : nat) : Z * Z * Z :=
  match hi with
  | O => (0, 200, 0)
  | S _ => (0, 150, 255)
  end.

Definition finger_color (s : option Side) (f : finger) : Z * Z * Z :=
  match s, f with
  | _, thumb => (255, 0, 255)
  | Some right, index => (0, 0, 255)
  | Some right, middle => (255, 0, 0)
  | Some right, ring => (0, 165, 255)
  | Some right, pinky => (0, 255, 0)
  | _, index => (240, 32, 160)
  | _, middle => (0, 0, 0)
  | _, ring => (42, 42, 128)
  | _, pinky => (0, 255, 255)
  end.

Definition finger_letter (f : finger) : String.string :=
  match f with
  | thumb => "T"
  | index => "I"
  | middle => "M"
  | ring => "R"
  | pinky => "P"
  end%string.

(** The marks of the hand at position [hi] of the list: a ring of radius
    8 at its centre; for each named fingertip a filled circle of radius 7
    in the finger's colour and, next to it, the finger's letter in white,
    or, without named fingertips, a filled circle of radius 6 at each
    fingertip; and the name of the pinching finger at the left, on the
    line of the hand. *)
Definition hand_marks (hi : nat) (n : NormalizedHandInfo) : list Overlay.Draw :=
  match center (info n) with
  | Some c => [Overlay.circle c 8 (center_color hi) 2]
  | None => []
  end ++
  match fingertips_named (info n) with
  | Some ((_ :: _) as named) =>
      flat_map
        (fun kv =>
           [Overlay.circle (snd kv) 7 (finger_color (side n) (fst kv)) (-1);
            Overlay.putText (finger_letter (fst kv))
              (px (snd kv) + 6, py (snd kv) - 6) 0.5 (255, 255, 255) 1])
        named
  | _ => map (fun tip => Overlay.circle tip 6 (0, 200, 255) (-1))
             (fingertips (info n))
  end ++
  match pinch_finger n with
  | Some f =>
      [Overlay.putText (String.append "Pinch:" (Overlay.finger_name f))
         (10, 25 + 18 * Z.of_nat hi) 0.55 (0, 255, 255) 2]
  | None => []
  end.

(** The marks of all the hands, hand after hand. *)
Definition overlay_marks (hands : list NormalizedHandInfo) : list Overlay.Draw :=
  concat (map (fun kn => hand_marks (fst kn) (snd kn))
              (combine (seq 0 (length hands)) hands)).

(** * Properties *)

(** ** Distances and the reals they stand for *)

Lemma Qltb_lt (a b : Q) : Qltb a b = true <-> (a < b)%Q.
Proof.
  unfold Qltb. rewrite negb_true_iff. split; intro H.
  - apply Qnot_le_lt. intro Hle. apply Qle_bool_iff in Hle. congruence.
  - destruct (Qle_bool b a) eqn:E; [|reflexivity].
    apply Qle_bool_iff in E. exfalso. exact (Qlt_not_le _ _ H E).
Qed.

Lemma Qltb_ge (a b : Q) : Qltb a b = false <-> (b <= a)%Q.
Proof.
  unfold Qltb. rewrite negb_false_iff. apply Qle_bool_iff.
Qed.

Lemma dist_ltb_lt (a b : dist) : dist_ltb a b = true <-> dist_lt a b.
Proof. apply Qltb_lt. Qed.

Lemma dist_ltb_ge (a b : dist) : dist_ltb a b = false <-> dist_le b a.
Proof. apply Qltb_ge. Qed.

Lemma Q2R_inject_Z (z : Z) : Q2R (inject_Z z) = IZR z.
Proof. unfold Q2R. simpl. field. Qed.

Lemma Q2R_nonneg (q : Q) : (0 <= q)%Q -> (0 <= Q2R q)%R.
Proof. intro H. apply Qle_Rle in H. now rewrite RMicromega.Q2R_0 in H. Qed.

Lemma dist2R_nonneg (d : dist) : (0 <= dist2R d)%R.
Proof. apply sqrt_pos. Qed.

Lemma dist2R_lt (a b : dist) :
  dist_wf a -> dist_wf b -> (dist_lt a b <-> (dist2R a < dist2R b)%R).
Proof.
  unfold dist_wf, dist_lt, dist2R. intros Ha Hb. split; intro H.
  - apply sqrt_lt_1_alt. split; [now apply Q2R_nonneg | now apply Qlt_Rlt].
  - apply Rlt_Qlt. now apply sqrt_lt_0_alt.
Qed.

Lemma dist2R_le (a b : dist) :
  dist_wf a -> dist_wf b -> (dist_le a b <-> (dist2R a <= dist2R b)%R).
Proof.
  unfold dist_wf, dist_le, dist2R. intros Ha Hb. split; intro H.
  - apply sqrt_le_1_alt. now apply Qle_Rle.
  - apply Rle_Qle. apply sqrt_le_0; auto using Q2R_nonneg.
Qed.

Lemma sum_squares_nonneg (a b : Z) : 0 <= a * a + b * b.
Proof. nia. Qed.

Lemma sqrt_Z_wf (n : Z) : 0 <= n -> dist_wf (sqrt_Z n).
Proof.
  intro H. unfold dist_wf, sqrt_Z. simpl.
  change 0%Q with (inject_Z 0). now rewrite <- Zle_Qle.
Qed.

Lemma hypot_wf (dx dy : Z) : dist_wf (hypot dx dy).
Proof. apply sqrt_Z_wf, sum_squares_nonneg. Qed.

Lemma dist_of_Z_wf (n : Z) : dist_wf (dist_of_Z n).
Proof. apply sqrt_Z_wf. nia. Qed.

Lemma frame_diag_pos (h w : positive) : (0 < radicand (frame_diag h w))%Q.
Proof.
  unfold frame_diag, sqrt_Z. simpl.
  change 0%Q with (inject_Z 0). rewrite <- Zlt_Qlt. lia.
Qed.

Lemma dist_div_wf (a b : dist) : dist_wf a -> dist_wf b -> dist_wf (dist_div a b).
Proof.
  unfold dist_wf, dist_div. simpl. intros Ha Hb.
  unfold Qdiv. apply Qmult_le_0_compat; [assumption|].
  now apply Qinv_le_0_compat.
Qed.

Lemma dist2R_sqrt_Z (n : Z) : dist2R (sqrt_Z n) = sqrt (IZR n).
Proof. unfold dist2R, sqrt_Z. simpl. now rewrite Q2R_inject_Z. Qed.

Lemma dist2R_of_Z (n : Z) : 0 <= n -> dist2R (dist_of_Z n) = IZR n.
Proof.
  intro H. unfold dist2R, dist_of_Z. simpl.
  rewrite Q2R_inject_Z, mult_IZR. apply sqrt_square. now apply IZR_le.
Qed.

Lemma dist2R_div (a b : dist) :
  (0 < radicand b)%Q ->
  dist2R (dist_div a b) = (dist2R a / dist2R b)%R.
Proof.
  intro Hb. unfold dist2R, dist_div. simpl.
  assert (Hb' : (0 < Q2R (radicand b))%R).
  { apply Qlt_Rlt in Hb. now rewrite RMicromega.Q2R_0 in Hb. }
  rewrite Q2R_div.
  - now apply sqrt_div_alt.
  - intro E. rewrite E in Hb. exact (Qlt_irrefl _ Hb).
Qed.

(** The distance of two points, as the program computes it from the
    coordinate differences. *)
Lemma dist2R_points (p q : point) :
  dist2R (sqrt_Z ((px p - px q) * (px p - px q) + (py p - py q) * (py p - py q)))
  = euclid p q.
Proof.
  rewrite dist2R_sqrt_Z. unfold euclid.
  now rewrite plus_IZR, !mult_IZR, !minus_IZR.
Qed.

Lemma euclid_sym (p q : point) : euclid p q = euclid q p.
Proof. unfold euclid. f_equal. ring. Qed.

Lemma dist2R_pinch_thresh : dist2R Main.pinch_thresh = (5 / 100)%R.
Proof.
  unfold dist2R, Main.pinch_thresh. simpl.
  replace (Q2R (1 # 400)) with ((5 / 100) * (5 / 100))%R
    by (unfold Q2R; simpl; field).
  apply sqrt_square. lra.
Qed.

(** ** [sorted] sorts *)

Section SortedFacts.
Context {A K : Type}.
Variable before : K -> K -> bool.
Variable key : A -> K.
Hypothesis before_asym :
  forall a b, before a b = true -> before b a = false.
Hypothesis before_negtrans :
  forall a b c, before b a = false -> before c b = false -> before c a = false.

Lemma sorted_insert_perm (x : A) (l : list A) :
  Permutation (sorted_insert before key x l) (x :: l).
Proof.
  induction l as [|y l IH]; simpl.
  - apply Permutation_refl.
  - destruct (before (key y) (key x)).
    + eapply perm_trans; [apply perm_skip, IH | apply perm_swap].
    + apply Permutation_refl.
Qed.

Lemma sorted_perm (l : list A) : Permutation (sorted before key l) l.
Proof.
  induction l as [|x l IH]; simpl.
  - apply perm_nil.
  - eapply perm_trans; [apply sorted_insert_perm | now apply perm_skip].
Qed.

Lemma sorted_In (l : list A) (x : A) : In x (sorted before key l) <-> In x l.
Proof.
  split; apply Permutation_in;
    [apply sorted_perm | apply Permutation_sym, sorted_perm].
Qed.

Lemma sorted_length (l : list A) : length (sorted before key l) = length l.
Proof. apply Permutation_length, sorted_perm. Qed.

Lemma sorted_insert_StronglySorted (x : A) (l : list A) :
  StronglySorted (not_after before key) l ->
  StronglySorted (not_after before key) (sorted_insert before key x l).
Proof.
  induction 1 as [|y l Hl IH Hy]; simpl.
  - constructor; constructor.
  - destruct (before (key y) (key x)) eqn:E.
    + constructor; [exact IH|].
      eapply Permutation_Forall;
        [apply Permutation_sym, sorted_insert_perm|].
      constructor; [|exact Hy].
      unfold not_after. now apply before_asym.
    + constructor; [now constructor|].
      constructor; [exact E|].
      eapply Forall_impl; [|exact Hy].
      intros z Hz. unfold not_after in *. eauto.
Qed.

Lemma sorted_StronglySorted (l : list A) :
  StronglySorted (not_after before key) (sorted before key l).
Proof.
  induction l as [|x l IH]; simpl.
  - constructor.
  - now apply sorted_insert_StronglySorted.
Qed.

(** Stability: elements that are tied with each other keep their order. *)
Lemma sorted_insert_filter (p : A -> bool) (x : A) (l : list A) :
  (forall y, p x = true -> p y = true -> before (key y) (key x) = false) ->
  filter p (sorted_insert before key x l) = filter p (x :: l).
Proof.
  intro Htied. induction l as [|y l IH]; [reflexivity|].
  cbn [sorted_insert]. destruct (before (key y) (key x)) eqn:E; [|reflexivity].
  cbn [filter] in *. rewrite IH.
  destruct (p x) eqn:Ex, (p y) eqn:Ey; try reflexivity.
  rewrite (Htied y eq_refl Ey) in E. discriminate.
Qed.

Lemma sorted_stable (p : A -> bool) (l : list A) :
  (forall x y, p x = true -> p y = true -> before (key y) (key x) = false) ->
  filter p (sorted before key l) = filter p l.
Proof.
  intro Htied. induction l as [|x l IH]; [reflexivity|].
  cbn [sorted]. rewrite sorted_insert_filter by (intro y; apply Htied).
  cbn [filter]. now rewrite IH.
Qed.
End SortedFacts.

(** The first element of a sorted list comes before all, the last one
    after all. *)
Lemma StronglySorted_first {A : Type} (R : A -> A -> Prop) (l : list A) (x : A) :
  StronglySorted R l -> getitem l 0 = Some x ->
  forall y, In y l -> y = x \/ R x y.
Proof.
  intros Hs Hx y Hy. destruct l as [|a l]; [discriminate|].
  simpl in Hx. injection Hx as ->. inversion Hs as [|? ? _ Hall]; subst.
  destruct Hy as [->|Hy]; [now left | right].
  rewrite Forall_forall in Hall. auto.
Qed.

Lemma StronglySorted_last {A : Type} (R : A -> A -> Prop) (l : list A) (x : A) :
  StronglySorted R l -> getlast l = Some x ->
  forall y, In y l -> y = x \/ R y x.
Proof.
  unfold getlast. induction 1 as [|a l Hs IH Hall]; intros Hx y Hy.
  - destruct Hy.
  - destruct l as [|b l'].
    + simpl in Hx. injection Hx as ->. destruct Hy as [->|[]]. now left.
    + assert (Hx' : nth_error (b :: l') (length (b :: l') - 1) = Some x).
      { simpl in *. now rewrite Nat.sub_0_r in *. }
      destruct Hy as [->|Hy].
      * right. rewrite Forall_forall in Hall. apply Hall.
        eapply nth_error_In; eassumption.
      * now apply IH.
Qed.

Lemma getitem_0_some {A : Type} (l : list A) :
  l <> [] -> exists x, getitem l 0 = Some x /\ In x l.
Proof.
  destruct l as [|a l]; [congruence|]. intros _. exists a. simpl. auto.
Qed.

Lemma getlast_some {A : Type} (l : list A) :
  l <> [] -> exists x, getlast l = Some x /\ In x l.
Proof.
  intro H. unfold getlast.
  destruct (nth_error l (length l - 1)) as [x|] eqn:E.
  - exists x. split; [reflexivity|]. eapply nth_error_In; eassumption.
  - apply nth_error_None in E. destruct l; [congruence|]. simpl in E. lia.
Qed.

Lemma Zltb_asym (a b : Z) : (a <? b) = true -> (b <? a) = false.
Proof. rewrite Z.ltb_lt, Z.ltb_ge. lia. Qed.

Lemma Zltb_negtrans (a b c : Z) :
  (b <? a) = false -> (c <? b) = false -> (c <? a) = false.
Proof. rewrite !Z.ltb_ge. lia. Qed.

Lemma Qgtb_asym (a b : Q) : Qltb b a = true -> Qltb a b = false.
Proof. rewrite Qltb_lt, Qltb_ge. apply Qlt_le_weak. Qed.

Lemma Qgtb_negtrans (a b c : Q) :
  Qltb a b = false -> Qltb b c = false -> Qltb a c = false.
Proof. rewrite !Qltb_ge. intros H1 H2. eapply Qle_trans; eassumption. Qed.

Lemma dist_ltb_asym (a b : dist) : dist_ltb a b = true -> dist_ltb b a = false.
Proof. rewrite dist_ltb_lt, dist_ltb_ge. apply Qlt_le_weak. Qed.

Lemma dist_ltb_negtrans (a b c : dist) :
  dist_ltb b a = false -> dist_ltb c b = false -> dist_ltb c a = false.
Proof.
  rewrite !dist_ltb_ge. unfold dist_le. intros H1 H2.
  eapply Qle_trans; eassumption.
Qed.

(** ** Subsequences *)

Lemma Subseq_refl {A : Type} (l : list A) : Subseq l l.
Proof. induction l; constructor; assumption. Qed.

Lemma Subseq_nil_l {A : Type} (l : list A) : Subseq [] l.
Proof. induction l; constructor; assumption. Qed.

Lemma Subseq_In {A : Type} (l1 l2 : list A) (x : A) :
  Subseq l1 l2 -> In x l1 -> In x l2.
Proof.
  induction 1; simpl; intros Hin; auto.
  destruct Hin; auto.
Qed.

Lemma Subseq_StronglySorted {A : Type} (R : A -> A -> Prop) (l1 l2 : list A) :
  Subseq l1 l2 -> StronglySorted R l2 -> StronglySorted R l1.
Proof.
  induction 1 as [|x l1 l2 Hs IH|x l1 l2 Hs IH]; intro H2.
  - constructor.
  - inversion H2; subst. auto.
  - inversion H2 as [|? ? Hl2 Hall]; subst. constructor; [auto|].
    rewrite Forall_forall in *. intros y Hy. apply Hall.
    eapply Subseq_In; eassumption.
Qed.

Lemma StronglySorted_weaken {A : Type} (R S : A -> A -> Prop) (l : list A) :
  (forall x y, R x y -> S x y) -> StronglySorted R l -> StronglySorted S l.
Proof.
  intros HRS. induction 1 as [|a l Hl IH Hall]; constructor; auto.
  eapply Forall_impl; [|exact Hall]. auto.
Qed.

Lemma firstn_In {A : Type} (n : nat) (l : list A) (x : A) :
  In x (firstn n l) -> In x l.
Proof.
  revert l. induction n as [|n IH]; intros l H.
  - destruct H.
  - destruct l as [|a l]; [destruct H|].
    destruct H as [->|H]; [now left | right; auto].
Qed.

(** ** The fingertip walk *)

Module TipsFacts.
Import OpenCVHandTracker.

Lemma apart_sym (p q : point) : apart p q = apart q p.
Proof.
  unfold apart, hypot. f_equal. f_equal. ring.
Qed.

Lemma apart_euclid (p q : point) :
  apart p q = true <-> (euclid p q > 25)%R.
Proof.
  unfold apart, dist_gtb. rewrite dist_ltb_lt.
  rewrite dist2R_lt by (apply dist_of_Z_wf || apply hypot_wf).
  unfold hypot. rewrite dist2R_points.
  rewrite dist2R_of_Z by (unfold min_sep; lia).
  unfold min_sep. reflexivity.
Qed.

Lemma tips_step_cases (tips : list point) (p : point) :
  tips_step tips p = tips \/
  (tips_step tips p = tips ++ [p] /\ Forall (fun q => apart p q = true) tips).
Proof.
  unfold tips_step. destruct tips as [|t tips].
  - right. split; [reflexivity | constructor].
  - destruct (forallb (apart p) (t :: tips)) eqn:E; [right | now left].
    split; [reflexivity|]. apply Forall_forall. now apply forallb_forall.
Qed.

Lemma tips_step_first (p : point) : tips_step [] p = [p].
Proof. reflexivity. Qed.

Lemma separated_nil : separated [].
Proof. intros a b p q _ H. destruct a; discriminate. Qed.

Lemma separated_snoc (l : list point) (p : point) :
  separated l -> Forall (fun q => apart p q = true) l -> separated (l ++ [p]).
Proof.
  intros Hl Hp a b x y Hab Ha Hb. rewrite Forall_forall in Hp.
  destruct (Nat.lt_ge_cases a (length l)) as [La|La];
    destruct (Nat.lt_ge_cases b (length l)) as [Lb|Lb].
  - rewrite nth_error_app1 in Ha, Hb by assumption. eauto.
  - rewrite nth_error_app1 in Ha by assumption.
    rewrite nth_error_app2 in Hb by assumption.
    destruct (b - length l)%nat as [|k]; simpl in Hb;
      [|destruct k; discriminate].
    injection Hb as <-. rewrite apart_sym. apply Hp.
    eapply nth_error_In; eassumption.
  - rewrite nth_error_app1 in Hb by assumption.
    rewrite nth_error_app2 in Ha by assumption.
    destruct (a - length l)%nat as [|k]; simpl in Ha;
      [|destruct k; discriminate].
    injection Ha as <-. apply Hp. eapply nth_error_In; eassumption.
  - rewrite nth_error_app2 in Ha, Hb by assumption.
    destruct (a - length l)%nat as [|k] eqn:Ea; simpl in Ha;
      [|destruct k; discriminate].
    destruct (b - length l)%nat as [|k] eqn:Eb; simpl in Hb;
      [|destruct k; discriminate].
    exfalso. lia.
Qed.

Lemma tips_step_separated (tips : list point) (p : point) :
  separated tips -> separated (tips_step tips p).
Proof.
  intro H. destruct (tips_step_cases tips p) as [->|[-> Hp]];
    [assumption | now apply separated_snoc].
Qed.

Lemma tips_step_length (tips : list point) (p : point) :
  (length (tips_step tips p) <= S (length tips))%nat.
Proof.
  destruct (tips_step_cases tips p) as [->|[-> _]];
    [lia | rewrite length_app; simpl; lia].
Qed.

Lemma tips_loop_length (pts tips : list point) :
  (length tips < 5)%nat -> (length (tips_loop pts tips) <= 5)%nat.
Proof.
  revert tips. induction pts as [|p pts IH]; intros tips Hlen; cbn [tips_loop].
  - lia.
  - pose proof (tips_step_length tips p) as Hs.
    destruct (Nat.leb 5 (length (tips_step tips p))) eqn:E.
    + lia.
    + apply IH. apply Nat.leb_gt in E. exact E.
Qed.

Lemma tips_loop_separated (pts tips : list point) :
  separated tips -> separated (tips_loop pts tips).
Proof.
  revert tips. induction pts as [|p pts IH]; intros tips Hsep; cbn [tips_loop].
  - assumption.
  - destruct (Nat.leb 5 (length (tips_step tips p)));
      [|apply IH]; now apply tips_step_separated.
Qed.

(** The walk only appends, and what it appends is picked from the
    points in their order. *)
Lemma tips_loop_app (pts tips : list point) :
  exists r, tips_loop pts tips = tips ++ r /\ Subseq r pts.
Proof.
  revert tips. induction pts as [|p pts IH]; intros tips; cbn [tips_loop].
  - exists []. split; [now rewrite app_nil_r | constructor].
  - destruct (tips_step_cases tips p) as [E|[E _]]; rewrite E.
    + destruct (Nat.leb 5 (length tips)).
      * exists []. split; [now rewrite app_nil_r | apply Subseq_nil_l].
      * destruct (IH tips) as (r & Hr & Hs). exists r.
        split; [assumption | now constructor].
    + destruct (Nat.leb 5 (length (tips ++ [p]))).
      * exists [p]. split; [reflexivity|].
        apply Subseq_keep, Subseq_nil_l.
      * destruct (IH (tips ++ [p])) as (r & Hr & Hs). exists (p :: r).
        split; [now rewrite Hr, <- app_assoc | now constructor].
Qed.

Lemma tips_loop_Subseq (pts : list point) : Subseq (tips_loop pts []) pts.
Proof. destruct (tips_loop_app pts []) as (r & -> & Hs). exact Hs. Qed.

(** The first point of the walk is always kept. *)
Lemma tips_loop_head (p : point) (pts : list point) :
  exists r, tips_loop (p :: pts) [] = p :: r.
Proof.
  simpl. destruct (tips_loop_app pts [p]) as (r & -> & _). now exists r.
Qed.

Section WithCv2.
Variable cv : cv2.

(** The function never raises; [info['fingertips']] is the result of
    the walk, and the other keys are set from it. *)
Lemma extract_spec (c : Contour cv) (hw : positive * positive) :
  exists i, _extract_hand_info_from_contour cv c hw = Some i /\
    fingertips i = tips_loop (hull_sorted cv c) [] /\
    if Nat.leb 2 (length (fingertips i)) then
      exists t x,
        getitem (topk_sorted_x (fingertips i)) 0 = Some t /\
        getlast (topk_sorted_x (fingertips i)) = Some x /\
        thumb_tip i = Some t /\ index_tip i = Some x /\
        distance_index_thumb i = hypot (px x - px t) (py x - py t)
    else
      thumb_tip i = None /\ index_tip i = None /\
      distance_index_thumb i = dist_zero.
Proof.
  unfold _extract_hand_info_from_contour, hull_sorted, topk_sorted_x.
  destruct hw as [h w].
  set (tips := tips_loop _ []).
  destruct (Nat.leb 2 (length tips)) eqn:E.
  - pose proof E as E'. apply Nat.leb_le in E'.
    assert (Hne : sorted Z.ltb px (firstn 3 tips) <> []).
    { intro H. apply (f_equal (@length point)) in H.
      rewrite sorted_length, length_firstn in H.
      change (length (@nil point)) with 0%nat in H. lia. }
    destruct (getitem_0_some _ Hne) as (t & Ht & _).
    destruct (getlast_some _ Hne) as (x & Hx & _).
    rewrite Ht, Hx. cbn [bind]. eexists. split; [reflexivity|].
    cbn [fingertips thumb_tip index_tip distance_index_thumb].
    split; [reflexivity|]. rewrite E. exists t, x. auto.
  - eexists. split; [reflexivity|].
    cbn [fingertips thumb_tip index_tip distance_index_thumb].
    split; [reflexivity|]. rewrite E. auto.
Qed.
End WithCv2.
End TipsFacts.

(** ** The Fingertip Estimator and the Thumb/Index Heuristic *)

(** C2. For every contour, [_extract_hand_info_from_contour] returns a
    hand whose [fingertips] list has at most 5 points, and the points at
    any two different positions of the list are strictly more than 25
    pixels apart in Euclidean distance. *)
Theorem fingertips_at_most_5_and_separated :
  forall (cv : cv2) (c : Contour cv) (frame_shape : positive * positive),
  exists i,
    OpenCVHandTracker._extract_hand_info_from_contour cv c frame_shape = Some i /\
    (length (fingertips i) <= 5)%nat /\
    forall a b p q, a <> b ->
      nth_error (fingertips i) a = Some p ->
      nth_error (fingertips i) b = Some q ->
      (euclid p q > 25)%R.
Proof.
  intros cv c hw.
  destruct (TipsFacts.extract_spec cv c hw) as (i & Hi & Hf & _).
  exists i. split; [exact Hi|]. rewrite Hf. split.
  - apply TipsFacts.tips_loop_length. simpl. lia.
  - intros a b p q Hab Ha Hb. apply TipsFacts.apart_euclid.
    exact (TipsFacts.tips_loop_separated _ _ TipsFacts.separated_nil
             a b p q Hab Ha Hb).
Qed.

(** C10. For every contour, the [fingertips] list is a subsequence of the
    hull points sorted by vertical coordinate ascending, so its
    y-coordinates never decrease along the list, and when the hull is not
    empty its first point is a hull point of least y. *)
Theorem fingertips_subsequence_of_hull_sorted :
  forall (cv : cv2) (c : Contour cv) (frame_shape : positive * positive),
  exists i,
    OpenCVHandTracker._extract_hand_info_from_contour cv c frame_shape = Some i /\
    Subseq (fingertips i) (hull_sorted cv c) /\
    Permutation (hull_sorted cv c) (convexHull c) /\
    StronglySorted (fun p q => py p <= py q) (hull_sorted cv c) /\
    StronglySorted (fun p q => py p <= py q) (fingertips i) /\
    (convexHull c <> [] ->
     exists p, hd_error (fingertips i) = Some p /\ In p (convexHull c) /\
               forall q, In q (convexHull c) -> py p <= py q).
Proof.
  intros cv c hw.
  destruct (TipsFacts.extract_spec cv c hw) as (i & Hi & Hf & _).
  exists i. split; [exact Hi|]. rewrite Hf.
  assert (Hsorted : StronglySorted (fun p q => py p <= py q) (hull_sorted cv c)).
  { eapply StronglySorted_weaken;
      [|apply (sorted_StronglySorted Z.ltb py Zltb_asym Zltb_negtrans)].
    intros p q H. unfold not_after in H. now apply Z.ltb_ge in H. }
  pose proof (TipsFacts.tips_loop_Subseq (hull_sorted cv c)) as Hsub.
  pose proof (sorted_perm Z.ltb py (convexHull c)) as Hperm.
  fold (hull_sorted cv c) in Hperm.
  repeat split; try assumption.
  - eapply Subseq_StronglySorted; eassumption.
  - intro Hne. destruct (hull_sorted cv c) as [|p rest] eqn:E.
    + apply Permutation_nil in Hperm. contradiction.
    + destruct (TipsFacts.tips_loop_head p rest) as (r & ->).
      exists p. split; [reflexivity|]. split.
      * eapply Permutation_in; [exact Hperm | now left].
      * intros q Hq. apply Permutation_sym in Hperm.
        apply (Permutation_in _ Hperm) in Hq.
        inversion Hsorted as [|? ? _ Hall]; subst.
        destruct Hq as [<-|Hq]; [lia|].
        rewrite Forall_forall in Hall. auto.
Qed.

(** C3. For every hand of the heuristic backend: with at least 2 fingertip
    candidates, [thumb_tip] is the leftmost and [index_tip] the rightmost
    (by x) of the first 3 candidates, both are in the [fingertips] list
    and [distance_index_thumb] is their Euclidean distance; with fewer
    than 2, both are [None] and the distance is 0.  No exception is
    raised: the function returns a hand in every case. *)
Theorem thumb_index_heuristic :
  forall (cv : cv2) (c : Contour cv) (frame_shape : positive * positive),
  exists i,
    OpenCVHandTracker._extract_hand_info_from_contour cv c frame_shape = Some i /\
    ((2 <= length (fingertips i))%nat ->
     exists t x,
       thumb_tip i = Some t /\ index_tip i = Some x /\
       In t (firstn 3 (fingertips i)) /\ In x (firstn 3 (fingertips i)) /\
       (forall q, In q (firstn 3 (fingertips i)) -> px t <= px q <= px x) /\
       In t (fingertips i) /\ In x (fingertips i) /\
       dist2R (distance_index_thumb i) = euclid x t) /\
    ((length (fingertips i) < 2)%nat ->
     thumb_tip i = None /\ index_tip i = None /\
     distance_index_thumb i = dist_zero /\
     dist2R (distance_index_thumb i) = 0%R).
Proof.
  intros cv c hw.
  destruct (TipsFacts.extract_spec cv c hw) as (i & Hi & _ & Hroles).
  exists i. split; [exact Hi|]. split.
  - intro Hlen. apply Nat.leb_le in Hlen. rewrite Hlen in Hroles.
    destruct Hroles as (t & x & Ht & Hx & Hthumb & Hindex & Hd).
    pose proof (sorted_StronglySorted Z.ltb px Zltb_asym Zltb_negtrans
                  (firstn 3 (fingertips i))) as Hs.
    fold (topk_sorted_x (fingertips i)) in Hs.
    assert (Hin : forall y, In y (topk_sorted_x (fingertips i)) <->
                            In y (firstn 3 (fingertips i)))
      by (intro y; apply sorted_In).
    assert (Ht' : In t (firstn 3 (fingertips i)))
      by (apply Hin; eapply nth_error_In; exact Ht).
    assert (Hx' : In x (firstn 3 (fingertips i)))
      by (apply Hin; eapply nth_error_In; exact Hx).
    exists t, x. repeat split; try assumption.
    + apply Hin in H.
      destruct (StronglySorted_first _ _ _ Hs Ht q H) as [->|Hq]; [lia|].
      unfold not_after in Hq. apply Z.ltb_ge in Hq. exact Hq.
    + apply Hin in H.
      destruct (StronglySorted_last _ _ _ Hs Hx q H) as [->|Hq]; [lia|].
      unfold not_after in Hq. apply Z.ltb_ge in Hq. exact Hq.
    + eapply firstn_In. exact Ht'.
    + eapply firstn_In. exact Hx'.
    + rewrite Hd. unfold hypot. apply dist2R_points.
  - intro Hlen. apply Nat.leb_gt in Hlen. rewrite Hlen in Hroles.
    destruct Hroles as (Hthumb & Hindex & Hd).
    repeat split; try assumption.
    rewrite Hd. unfold dist2R, dist_zero. simpl.
    rewrite RMicromega.Q2R_0. apply sqrt_0.
Qed.

(** ** The Contour Selector and the temporal buffer *)

Module ProcessFacts.
Import OpenCVHandTracker.

Lemma deque_append_length {A : Type} (n : nat) (d : list A) (x : A) :
  (0 < n)%nat -> (length d <= n)%nat -> (length (deque_append n d x) <= n)%nat.
Proof.
  intros Hn Hd. unfold deque_append.
  destruct (Nat.eqb (length d) n) eqn:E.
  - apply Nat.eqb_eq in E. destruct d as [|a d]; simpl in *; [lia|].
    rewrite length_app. simpl. lia.
  - apply Nat.eqb_neq in E. rewrite length_app. simpl. lia.
Qed.

Lemma deque_append_last {A : Type} (n : nat) (d : list A) (x : A) :
  exists d', deque_append n d x = d' ++ [x] /\ (d' = d \/ d' = tl d).
Proof.
  unfold deque_append. destruct (Nat.eqb (length d) n); eauto.
Qed.

Section WithCv2.
Variable cv : cv2.

Lemma big_enough_iff (c : Contour cv) :
  big_enough cv c = true <-> (2000 <= contourArea c)%Q.
Proof.
  unfold big_enough, min_area. rewrite negb_true_iff. apply Qltb_ge.
Qed.

Lemma contours_sorted_perm (l : list (Contour cv)) :
  Permutation (contours_sorted cv l) l.
Proof. apply sorted_perm. Qed.

Lemma contours_sorted_descending (l : list (Contour cv)) :
  StronglySorted area_ge (contours_sorted cv l).
Proof.
  eapply StronglySorted_weaken;
    [|apply (sorted_StronglySorted (fun a b => Qltb b a) contourArea)].
  - intros x y H. unfold not_after in H. now apply Qltb_ge in H.
  - intros a b. apply Qgtb_asym.
  - intros a b c. apply Qgtb_negtrans.
Qed.

(** In a list of descending area nothing follows a contour that is
    too small. *)
Lemma filter_big_enough_nil (c : Contour cv) (l : list (Contour cv)) :
  big_enough cv c = false -> Forall (area_ge c) l ->
  filter (big_enough cv) l = [].
Proof.
  intros Hc Hall. induction Hall as [|y l Hy _ IH]; simpl; [reflexivity|].
  replace (big_enough cv y) with false; [exact IH|].
  symmetry. unfold big_enough in *. rewrite negb_false_iff in *.
  apply Qltb_lt. apply Qltb_lt in Hc. unfold area_ge in Hy.
  eapply Qle_lt_trans; eassumption.
Qed.

(** Slicing a list of descending area before or after the filter is
    the same. *)
Lemma filter_firstn_descending (n : nat) (l : list (Contour cv)) :
  StronglySorted area_ge l ->
  filter (big_enough cv) (firstn n l) = firstn n (filter (big_enough cv) l).
Proof.
  intro Hs. revert n. induction Hs as [|c l Hl IH Hall]; intro n.
  - now rewrite !firstn_nil.
  - destruct n as [|n]; [reflexivity|]. cbn [firstn filter].
    destruct (big_enough cv c) eqn:E.
    + cbn [firstn]. now rewrite IH.
    + rewrite (filter_big_enough_nil c l E Hall).
      apply (filter_big_enough_nil c); [exact E|].
      rewrite Forall_forall in *. intros y Hy. apply Hall.
      eapply firstn_In; exact Hy.
Qed.

(** The loop extracts a hand from each contour that is big enough,
    in order, and never raises. *)
Lemma process_loop_spec (cs : list (Contour cv)) (hw : positive * positive)
    (hands_out : list HandInfo) :
  exists infos,
    process_loop cv cs hw hands_out = Some (hands_out ++ infos) /\
    Forall2 (fun c i => _extract_hand_info_from_contour cv c hw = Some i)
            (filter (big_enough cv) cs) infos.
Proof.
  revert hands_out. induction cs as [|c cs IH]; intro hands_out;
    cbn [process_loop filter].
  - exists []. split; [now rewrite app_nil_r | constructor].
  - unfold big_enough at 1.
    destruct (Qltb (contourArea c) min_area); cbn [negb].
    + apply IH.
    + destruct (TipsFacts.extract_spec cv c hw) as (i & Hi & _).
      rewrite Hi. cbn [bind].
      destruct (IH (hands_out ++ [i])) as (infos & Hl & Hf).
      exists (i :: infos). split.
      * now rewrite Hl, <- app_assoc.
      * now constructor.
Qed.

(** What [process] returns and what it does to [self.history]. *)
Lemma process_spec (self : t) (frame : Frame cv) :
  let contours := findContours (_skin_mask cv frame) in
  exists hands,
    Forall2 (fun c i =>
               _extract_hand_info_from_contour cv c (shape frame) = Some i)
            (filter (big_enough cv) (firstn 2 (contours_sorted cv contours)))
            hands /\
    process cv self frame =
      Some (hands,
            match contours with
            | [] => self
            | _ :: _ =>
                {| history := deque_append maxlen (history self) hands |}
            end).
Proof.
  intro contours. unfold process. fold contours.
  destruct (shape frame) as [h w] eqn:Eshape.
  destruct contours as [|c0 cs] eqn:Ec.
  - exists []. split; [constructor | reflexivity].
  - destruct (process_loop_spec (firstn 2 (contours_sorted cv (c0 :: cs)))
                (h, w) []) as (infos & Hl & Hf).
    exists infos. rewrite Hl. cbn [bind app]. split; [exact Hf | reflexivity].
Qed.
End WithCv2.
End ProcessFacts.

(** C1. For every frame, [OpenCVHandTracker.process] returns the hands of
    at most 2 regions: of the first 2 contours in descending order of
    area, those whose area is at least 2000.  Because the order is
    descending, slicing to 2 before the filter gives the same regions as
    filtering first: a contour below the threshold never takes the place
    of one above it. *)
Theorem process_selects_two_largest_regions :
  forall (cv : cv2) (self : OpenCVHandTracker.t) (frame : Frame cv),
  let contours := findContours (OpenCVHandTracker._skin_mask cv frame) in
  let by_area := OpenCVHandTracker.contours_sorted cv contours in
  let regions := filter (OpenCVHandTracker.big_enough cv) (firstn 2 by_area) in
  Permutation by_area contours /\
  StronglySorted area_ge by_area /\
  (forall c, OpenCVHandTracker.big_enough cv c = true <->
             (2000 <= contourArea c)%Q) /\
  regions = firstn 2 (filter (OpenCVHandTracker.big_enough cv) by_area) /\
  (length regions <= 2)%nat /\
  exists hands self',
    OpenCVHandTracker.process cv self frame = Some (hands, self') /\
    Forall2 (fun c i =>
               OpenCVHandTracker._extract_hand_info_from_contour
                 cv c (shape frame) = Some i)
            regions hands /\
    (length hands <= 2)%nat.
Proof.
  intros cv self frame contours by_area regions.
  pose proof (ProcessFacts.contours_sorted_descending cv contours) as Hs.
  assert (Hreg : regions =
                 firstn 2 (filter (OpenCVHandTracker.big_enough cv) by_area))
    by (apply ProcessFacts.filter_firstn_descending; exact Hs).
  assert (Hlen : (length regions <= 2)%nat)
    by (rewrite Hreg; apply firstn_le_length).
  split; [apply ProcessFacts.contours_sorted_perm|].
  split; [exact Hs|].
  split; [apply ProcessFacts.big_enough_iff|].
  split; [exact Hreg|]. split; [exact Hlen|].
  destruct (ProcessFacts.process_spec cv self frame) as (hands & Hf & Hp).
  exists hands. eexists. split; [exact Hp|]. split; [exact Hf|].
  apply Forall2_length in Hf. fold contours by_area regions in Hf. lia.
Qed.

(** The buffer never holds more than [maxlen] lists. *)
Lemma process_history_bounded (cv : cv2) (self self' : OpenCVHandTracker.t)
    (frame : Frame cv) (hands : list HandInfo) :
  (length (OpenCVHandTracker.history self) <= OpenCVHandTracker.maxlen)%nat ->
  OpenCVHandTracker.process cv self frame = Some (hands, self') ->
  (length (OpenCVHandTracker.history self') <= OpenCVHandTracker.maxlen)%nat.
Proof.
  intros Hlen Hp.
  destruct (ProcessFacts.process_spec cv self frame) as (hands0 & _ & Hp0).
  rewrite Hp in Hp0. injection Hp0 as -> ->.
  destruct (findContours (OpenCVHandTracker._skin_mask cv frame));
    [exact Hlen|].
  apply ProcessFacts.deque_append_length; [|exact Hlen].
  unfold OpenCVHandTracker.maxlen. lia.
Qed.

(** C7, on a frame without contours.  [process] returns before it reaches
    [self.history.append]: the buffer is left as it was.  A frame whose
    contours are all too small also yields no hand, and there the empty
    list is appended. *)
Theorem process_without_contours_skips_history :
  OpenCVHandTracker.process Toy.cv OpenCVHandTracker.init []
    = Some ([], OpenCVHandTracker.init) /\
  OpenCVHandTracker.process Toy.cv OpenCVHandTracker.init [Toy.speck]
    = Some ([], {| OpenCVHandTracker.history := [[]] |}).
Proof. split; reflexivity. Qed.

(** ** Dictionaries *)

Lemma finger_eqb_eq (a b : finger) : finger_eqb a b = true <-> a = b.
Proof. destruct a, b; simpl; split; congruence. Qed.

Lemma finger_eqb_neq (a b : finger) : finger_eqb a b = false <-> a <> b.
Proof. destruct a, b; simpl; split; congruence. Qed.

Lemma finger_eqb_refl (a : finger) : finger_eqb a a = true.
Proof. now apply finger_eqb_eq. Qed.

Section DictFacts.
Context {V : Type}.

Lemma dict_get_In (k : finger) (v : V) (d : dict V) :
  dict_get k d = Some v -> In (k, v) d.
Proof.
  induction d as [|[k' v'] d IH]; simpl; [discriminate|].
  destruct (finger_eqb k k') eqn:E.
  - apply finger_eqb_eq in E. subst. intros [= ->]. now left.
  - intro H. right. auto.
Qed.

Lemma In_dict_get (k : finger) (v : V) (d : dict V) :
  NoDup (keys d) -> In (k, v) d -> dict_get k d = Some v.
Proof.
  induction d as [|[k' v'] d IH]; simpl; intros Hnd Hin; [destruct Hin|].
  inversion Hnd as [|? ? Hk' Hd]; subst.
  destruct Hin as [[= -> ->]|Hin].
  - now rewrite finger_eqb_refl.
  - destruct (finger_eqb k k') eqn:E; [|auto].
    apply finger_eqb_eq in E. subst. exfalso. apply Hk'.
    unfold keys. change k' with (fst (k', v)). now apply in_map.
Qed.

(** Assigning to a key that is not there appends the item. *)
Lemma dict_set_new (k : finger) (v : V) (d : dict V) :
  ~ In k (keys d) -> dict_set k v d = d ++ [(k, v)].
Proof.
  induction d as [|[k' v'] d IH]; simpl; intro H; [reflexivity|].
  destruct (finger_eqb k k') eqn:E.
  - apply finger_eqb_eq in E. subst. exfalso. auto.
  - rewrite IH; auto.
Qed.

Lemma dict_set_keys_In (k k0 : finger) (v : V) (d : dict V) :
  In k0 (keys (dict_set k v d)) <-> k0 = k \/ In k0 (keys d).
Proof.
  induction d as [|[k' v'] d IH]; simpl.
  - intuition.
  - destruct (finger_eqb k k') eqn:E; simpl.
    + apply finger_eqb_eq in E. subst. intuition.
    + rewrite IH. intuition.
Qed.

Lemma dict_set_NoDup (k : finger) (v : V) (d : dict V) :
  NoDup (keys d) -> NoDup (keys (dict_set k v d)).
Proof.
  induction d as [|[k' v'] d IH]; simpl; intro H.
  - constructor; [intros []|constructor].
  - inversion H as [|? ? Hk' Hd]; subst.
    destruct (finger_eqb k k') eqn:E; simpl.
    + now constructor.
    + constructor; [|now apply IH].
      fold (keys (dict_set k v d)). rewrite dict_set_keys_In.
      intros [->|Hin]; [|contradiction].
      now rewrite finger_eqb_refl in E.
Qed.

Lemma dict_set_Forall (P : V -> Prop) (k : finger) (v : V) (d : dict V) :
  P v -> Forall (fun kv => P (snd kv)) d ->
  Forall (fun kv => P (snd kv)) (dict_set k v d).
Proof.
  intros Hv. induction 1 as [|[k' v'] d Hkv Hd IH]; simpl.
  - now repeat constructor.
  - destruct (finger_eqb k k'); constructor; auto.
Qed.
End DictFacts.

(** ** The Gesture Derivation Stage *)

Module MainFacts.
Import Main.

(** *** The distance map *)

Lemma dist_map_loop_NoDup items thumb_pt diag dist_map :
  NoDup (keys dist_map) ->
  NoDup (keys (dist_map_loop items thumb_pt diag dist_map)).
Proof.
  revert dist_map. induction items as [|[fname pt] items IH];
    intros dist_map H; simpl; [assumption|].
  destruct (finger_eqb fname thumb); apply IH; [assumption|].
  now apply dict_set_NoDup.
Qed.

Lemma dist_map_loop_wf items thumb_pt diag dist_map :
  dist_wf diag ->
  Forall (fun kv => dist_wf (snd kv)) dist_map ->
  Forall (fun kv => dist_wf (snd kv))
         (dist_map_loop items thumb_pt diag dist_map).
Proof.
  intro Hdiag. revert dist_map. induction items as [|[fname pt] items IH];
    intros dist_map H; simpl; [assumption|].
  destruct (finger_eqb fname thumb); apply IH; [assumption|].
  apply dict_set_Forall; [|assumption].
  apply dist_div_wf; [|assumption]. apply sqrt_Z_wf, sum_squares_nonneg.
Qed.

(** On a dictionary, where no key occurs twice, the loop appends one
    entry per finger other than the thumb, in the order of the items. *)
Lemma dist_map_loop_items items thumb_pt diag dist_map :
  NoDup (keys items) ->
  (forall f, In f (keys items) -> ~ In f (keys dist_map)) ->
  dist_map_loop items thumb_pt diag dist_map =
  dist_map ++ map (dist_entry thumb_pt diag)
                  (filter (fun kv => non_thumb (fst kv)) items).
Proof.
  revert dist_map. induction items as [|[fname pt] items IH];
    intros dist_map Hnd Hfresh; simpl.
  - now rewrite app_nil_r.
  - inversion Hnd as [|? ? Hf Hitems]; subst. unfold non_thumb at 1. simpl.
    destruct (finger_eqb fname thumb) eqn:E; simpl.
    + apply IH; [assumption|]. intros f Hin. apply Hfresh. now right.
    + rewrite IH; [|assumption|].
      * rewrite dict_set_new by (apply Hfresh; now left).
        now rewrite <- app_assoc.
      * intros f Hin. rewrite dict_set_keys_In.
        intros [->|Hin']; [contradiction|].
        apply (Hfresh f); [now right | assumption].
Qed.

(** *** The pinch selection *)

Lemma finger_min_spec (th : dist) (m : dict dist) :
  m <> [] ->
  exists f v, In (f, v) m /\
    (forall f' v', In (f', v') m -> dist_le v v') /\
    finger_min th m = if dist_ltb v th then Some f else None.
Proof.
  intro Hne.
  assert (Hfm : finger_min th m =
                match sorted dist_ltb snd m with
                | [] => None
                | kv :: _ =>
                    if dist_ltb (snd kv) th then Some (fst kv) else None
                end)
    by (destruct m; [congruence | reflexivity]).
  rewrite Hfm. clear Hfm.
  assert (Hne' : sorted dist_ltb snd m <> []).
  { intro H. apply (f_equal (@length _)) in H.
    rewrite sorted_length in H. destruct m; [congruence | discriminate]. }
  destruct (getitem_0_some _ Hne') as ([f v] & Hhd & Hin).
  pose proof (sorted_StronglySorted dist_ltb snd
                dist_ltb_asym dist_ltb_negtrans m) as Hs.
  exists f, v.
  split; [exact (proj1 (sorted_In dist_ltb snd m (f, v)) Hin)|]. split.
  - intros f' v' Hin'.
    apply (proj2 (sorted_In dist_ltb snd m (f', v'))) in Hin'.
    destruct (StronglySorted_first _ _ _ Hs Hhd _ Hin') as [[= -> ->]|H].
    + apply Qle_refl.
    + unfold not_after in H. simpl in H. now apply dist_ltb_ge in H.
  - destruct (sorted dist_ltb snd m) as [|kv l]; [congruence|].
    simpl in Hhd. injection Hhd as ->. reflexivity.
Qed.

Lemma finger_min_monotone (t1 t2 : dist) (m : dict dist) (f : finger) :
  dist_le t1 t2 -> finger_min t1 m = Some f -> finger_min t2 m = Some f.
Proof.
  unfold finger_min. intros Hle. destruct m as [|kv0 m0]; [discriminate|].
  destruct (sorted dist_ltb snd (kv0 :: m0)) as [|kv l]; [discriminate|].
  destruct (dist_ltb (snd kv) t1) eqn:E1; [|discriminate].
  intros [= <-]. apply dist_ltb_lt in E1.
  replace (dist_ltb (snd kv) t2) with true; [reflexivity|].
  symmetry. apply dist_ltb_lt. unfold dist_lt, dist_le in *.
  eapply Qlt_le_trans; eassumption.
Qed.

(** *** The keys of [ninfo] *)

Lemma ninfo_finger_dist_norm th (i : HandInfo) h w :
  finger_dist_norm (ninfo_with th i h w) =
  match thumb_tip i, fingertips_named i with
  | Some thumb_pt, Some ((_ :: _) as named) =>
      Some (dist_map_loop named thumb_pt (frame_diag h w) [])
  | _, _ => None
  end.
Proof.
  unfold ninfo_with.
  destruct (thumb_tip i) as [t|]; [|reflexivity].
  destruct (fingertips_named i) as [[|kv named]|]; reflexivity.
Qed.

Lemma ninfo_pinch_finger th (i : HandInfo) h w :
  pinch_finger (ninfo_with th i h w) =
  match finger_dist_norm (ninfo_with th i h w) with
  | Some dist_map => finger_min th dist_map
  | None => None
  end.
Proof.
  unfold ninfo_with.
  destruct (thumb_tip i) as [t|]; [|reflexivity].
  destruct (fingertips_named i) as [[|kv named]|]; reflexivity.
Qed.

Lemma ninfo_pinch_distance_norm th (i : HandInfo) h w :
  pinch_distance_norm (ninfo_with th i h w) =
  match pinch_finger (ninfo_with th i h w),
        finger_dist_norm (ninfo_with th i h w) with
  | Some f, Some dist_map => dict_get f dist_map
  | _, _ => None
  end.
Proof.
  unfold ninfo_with.
  destruct (thumb_tip i) as [t|]; [|reflexivity].
  destruct (fingertips_named i) as [[|kv named]|]; reflexivity.
Qed.

(** [cx < w / 2] on floats is [2 * cx < w] on integers. *)
Lemma Qltb_half (cx : Z) (w : positive) :
  Qltb (inject_Z cx) (inject_Z (Zpos w) / 2) = (2 * cx <? Zpos w).
Proof.
  unfold Qltb, Qle_bool, Qdiv, Qmult, Qinv, inject_Z. cbn [Qnum Qden].
  change (Z.pos (1 * 2)) with 2.
  destruct (Z.leb_spec (Z.pos w * 1 * 1) (cx * 2)),
           (Z.ltb_spec (2 * cx) (Z.pos w)); simpl; try reflexivity; lia.
Qed.

Lemma ninfo_side th (i : HandInfo) h w :
  side (ninfo_with th i h w) =
  match center i with
  | Some (cx, cy) => Some (if 2 * cx <? Zpos w then left else right)
  | None => None
  end.
Proof.
  assert (H : side (ninfo_with th i h w) =
              match center i with
              | Some (cx, cy) =>
                  Some (if Qltb (inject_Z cx) (inject_Z (Zpos w) / 2)
                        then left else right)
              | None => None
              end).
  { unfold ninfo_with.
    destruct (thumb_tip i) as [t|]; [|reflexivity].
    destruct (fingertips_named i) as [[|kv named]|]; reflexivity. }
  rewrite H. destruct (center i) as [[cx cy]|]; [|reflexivity].
  now rewrite Qltb_half.
Qed.
End MainFacts.

(** ** The landmark backend *)

Module MediaPipeFacts.
Import MediaPipeHandTracker.

(** [int(s / 2)] truncates the half of an integer towards zero. *)
Lemma int_of_half (s : Z) : int_of_Q (inject_Z s / 2) = Z.quot s 2.
Proof.
  unfold int_of_Q, Qdiv, Qmult, Qinv, inject_Z. cbn [Qnum Qden].
  change (Z.pos (1 * 2)) with 2. now rewrite Z.mul_1_r.
Qed.

Lemma hand_info_mapping (pts : list point) (h w : positive) :
  length pts = 21%nat ->
  exists i, hand_info pts h w = Some i /\ landmark_mapping pts h w i.
Proof.
  intro Hlen.
  do 21 (destruct pts as [|? pts]; [discriminate|]).
  destruct pts; [|discriminate]. clear Hlen.
  eexists. split; [reflexivity|].
  unfold landmark_mapping.
  cbn [thumb_tip index_tip fingertips fingertips_named center
       hand_size_norm nth].
  repeat (split; [reflexivity|]).
  split; [now rewrite !int_of_half|].
  eexists. split; [reflexivity|].
  rewrite dist2R_div by apply frame_diag_pos.
  now rewrite dist2R_points.
Qed.

Lemma process_loop_mapping (lms : list (list (Q * Q))) (h w : positive)
    (hands_out : list HandInfo) :
  Forall (fun lm => length lm = 21%nat) lms ->
  exists hands,
    process_loop lms h w hands_out = Some (hands_out ++ hands) /\
    Forall2 (fun lm i => landmark_mapping (pts_of lm h w) h w i) lms hands.
Proof.
  intro Hall. revert hands_out.
  induction Hall as [|lm lms Hlm _ IH]; intro hands_out; simpl.
  - exists []. split; [now rewrite app_nil_r | constructor].
  - destruct (hand_info_mapping (pts_of lm h w) h w) as (i & Hi & Hmap).
    { unfold pts_of. now rewrite length_map. }
    rewrite Hi. cbn [bind].
    destruct (IH (hands_out ++ [i])) as (hands & Hl & Hf).
    exists (i :: hands). split.
    + now rewrite Hl, <- app_assoc.
    + now constructor.
Qed.
End MediaPipeFacts.

(** C9. For every hand the landmark backend returns, with [pts] its 21
    landmark points: [thumb_tip = pts[4]], [index_tip = pts[8]],
    [fingertips = [pts[4], pts[8], pts[12], pts[16], pts[20]]],
    [fingertips_named] maps thumb, index, middle, ring, pinky to the same
    five points, [center] is the integer midpoint of [pts[0]] and
    [pts[9]], and [hand_size_norm] is the Euclidean distance from
    [pts[0]] to [pts[12]] over the frame diagonal.  [process] returns one
    such hand per detected landmark list, in order. *)
Theorem landmark_index_mapping :
  forall (multi_hand_landmarks : list (list (Q * Q))) (h w : positive),
  Forall (fun lm => length lm = 21%nat) multi_hand_landmarks ->
  exists hands,
    MediaPipeHandTracker.process multi_hand_landmarks h w = Some hands /\
    Forall2 (fun lm i =>
               landmark_mapping (MediaPipeHandTracker.pts_of lm h w) h w i)
            multi_hand_landmarks hands.
Proof.
  intros lms h w Hall. unfold MediaPipeHandTracker.process.
  destruct (MediaPipeFacts.process_loop_mapping lms h w [] Hall)
    as (hands & Hl & Hf).
  exists hands. split; assumption.
Qed.

Lemma landmark_index_mapping_witness :
  Forall (fun lm => length lm = 21%nat) [Toy.lm21] /\
  exists hands,
    MediaPipeHandTracker.process [Toy.lm21] 480 640 = Some hands /\
    Forall2 (fun lm i =>
               landmark_mapping (MediaPipeHandTracker.pts_of lm 480 640)
                                480 640 i)
            [Toy.lm21] hands.
Proof.
  assert (H : Forall (fun lm => length lm = 21%nat) [Toy.lm21])
    by (repeat constructor).
  split; [exact H | exact (landmark_index_mapping [Toy.lm21] 480 640 H)].
Defined.

(** ** Pinch, finger distances and side *)

(** C4. For every hand whose derived [finger_dist_norm] map is not empty:
    the map has a least value [v], held by a finger [f]; if [v] is
    strictly below 0.05 then [pinch_finger] is [f] and
    [pinch_distance_norm] is [v], and otherwise both are absent. *)
Theorem pinch_selection :
  forall (i : HandInfo) (h w : positive) (m : dict dist),
  finger_dist_norm (Main.ninfo i h w) = Some m ->
  m <> [] ->
  exists f v,
    In (f, v) m /\
    (forall f' v', In (f', v') m -> (dist2R v <= dist2R v')%R) /\
    ((dist2R v < 5 / 100)%R ->
     pinch_finger (Main.ninfo i h w) = Some f /\
     pinch_distance_norm (Main.ninfo i h w) = Some v) /\
    (~ (dist2R v < 5 / 100)%R ->
     pinch_finger (Main.ninfo i h w) = None /\
     pinch_distance_norm (Main.ninfo i h w) = None).
Proof.
  intros i h w m Hm Hne. unfold Main.ninfo in *.
  pose proof (MainFacts.ninfo_pinch_finger Main.pinch_thresh i h w) as Hpf.
  pose proof (MainFacts.ninfo_pinch_distance_norm Main.pinch_thresh i h w) as Hpd.
  rewrite Hm in Hpf, Hpd.
  assert (Hm' : NoDup (keys m) /\ Forall (fun kv => dist_wf (snd kv)) m).
  { rewrite MainFacts.ninfo_finger_dist_norm in Hm.
    destruct (thumb_tip i) as [t|]; [|discriminate].
    destruct (fingertips_named i) as [[|kv named]|]; try discriminate.
    assert (E : m = Main.dist_map_loop (kv :: named) t (frame_diag h w) [])
      by congruence.
    rewrite E. split.
    - apply MainFacts.dist_map_loop_NoDup. constructor.
    - apply MainFacts.dist_map_loop_wf; [|constructor].
      apply sqrt_Z_wf, sum_squares_nonneg. }
  destruct Hm' as [Hnd Hwf]. rewrite Forall_forall in Hwf.
  destruct (MainFacts.finger_min_spec Main.pinch_thresh m Hne)
    as (f & v & Hin & Hmin & Hfm).
  assert (Hv : dist_wf v) by exact (Hwf _ Hin).
  assert (Hth : dist_wf Main.pinch_thresh) by (unfold dist_wf, Qle; simpl; lia).
  exists f, v. split; [exact Hin|]. split.
  - intros f' v' Hin'. apply dist2R_le; [exact Hv | exact (Hwf _ Hin') | eauto].
  - rewrite <- dist2R_pinch_thresh, <- (dist2R_lt v _ Hv Hth), <- dist_ltb_lt.
    rewrite Hpf, Hfm in *. split; intro Hlt.
    + rewrite Hlt in *. split; [reflexivity|].
      rewrite Hpd. now apply In_dict_get.
    + apply not_true_is_false in Hlt. rewrite Hlt in *. auto.
Qed.

Lemma pinch_selection_witness :
  finger_dist_norm (Main.ninfo Toy.pinching 480 640)
    = Some Toy.pinching_dist_map /\
  Toy.pinching_dist_map <> [] /\
  exists f v,
    In (f, v) Toy.pinching_dist_map /\
    (forall f' v', In (f', v') Toy.pinching_dist_map ->
                   (dist2R v <= dist2R v')%R) /\
    ((dist2R v < 5 / 100)%R ->
     pinch_finger (Main.ninfo Toy.pinching 480 640) = Some f /\
     pinch_distance_norm (Main.ninfo Toy.pinching 480 640) = Some v) /\
    (~ (dist2R v < 5 / 100)%R ->
     pinch_finger (Main.ninfo Toy.pinching 480 640) = None /\
     pinch_distance_norm (Main.ninfo Toy.pinching 480 640) = None).
Proof.
  assert (H1 : finger_dist_norm (Main.ninfo Toy.pinching 480 640)
               = Some Toy.pinching_dist_map) by reflexivity.
  assert (H2 : Toy.pinching_dist_map <> []) by discriminate.
  split; [exact H1|]. split; [exact H2|].
  exact (pinch_selection Toy.pinching 480 640 Toy.pinching_dist_map H1 H2).
Defined.

(** The distance map of a hand that has a [thumb_tip] and names, in a
    dictionary, at least one finger other than the thumb: one entry per
    such finger, in the order of [fingertips_named], each the Euclidean
    distance of the tip to [thumb_tip] over the frame diagonal. *)
Lemma finger_dist_norm_entries :
  forall (i : HandInfo) (h w : positive) (t : point) (named : dict point),
  thumb_tip i = Some t ->
  fingertips_named i = Some named ->
  NoDup (keys named) ->
  (exists f, In f (keys named) /\ f <> thumb) ->
  exists m,
    finger_dist_norm (Main.ninfo i h w) = Some m /\
    m <> [] /\
    keys m = filter non_thumb (keys named) /\
    NoDup (keys m) /\
    (forall f, In f (keys m) <-> In f (keys named) /\ f <> thumb) /\
    (forall f pt, In (f, pt) named -> f <> thumb ->
       exists v, dict_get f m = Some v /\
                 dist2R v = (euclid pt t / dist2R (frame_diag h w))%R /\
                 (0 <= dist2R v)%R).
Proof.
  intros i h w t named Ht Hnamed Hnd (f0 & Hf0 & Hf0').
  unfold Main.ninfo. rewrite MainFacts.ninfo_finger_dist_norm, Ht, Hnamed.
  destruct named as [|kv0 named0] eqn:En; [destruct Hf0|]. rewrite <- En in *.
  clear En kv0 named0.
  rewrite MainFacts.dist_map_loop_items by (auto; intros ? ? []).
  cbn [app]. eexists. split; [reflexivity|].
  set (m := map _ _).
  assert (Hkeys : keys m = filter non_thumb (keys named)).
  { unfold m, keys. rewrite map_map. cbn [dist_entry fst].
    clear. induction named as [|[f pt] named IH]; [reflexivity|].
    simpl. destruct (non_thumb f); simpl; now rewrite IH. }
  assert (Hmem : forall f, In f (keys m) <-> In f (keys named) /\ f <> thumb).
  { intro f. rewrite Hkeys, filter_In. unfold non_thumb.
    rewrite negb_true_iff, finger_eqb_neq. reflexivity. }
  assert (Hndm : NoDup (keys m)) by (rewrite Hkeys; now apply NoDup_filter).
  split; [|split; [exact Hkeys | split; [exact Hndm | split; [exact Hmem|]]]].
  - intro E. assert (Hin : In f0 (keys m)) by (apply Hmem; auto).
    rewrite E in Hin. destruct Hin.
  - intros f pt Hin Hf.
    exists (snd (dist_entry t (frame_diag h w) (f, pt))). split; [|split].
    + apply In_dict_get; [exact Hndm|].
      change (In (dist_entry t (frame_diag h w) (f, pt)) m).
      unfold m. apply in_map. apply filter_In. split; [exact Hin|].
      unfold non_thumb. cbn [fst]. now rewrite negb_true_iff, finger_eqb_neq.
    + cbn [dist_entry snd]. rewrite dist2R_div by apply frame_diag_pos.
      now rewrite dist2R_points.
    + apply dist2R_nonneg.
Qed.

(** C6. For every hand with a [center], the derived [side] is ['left']
    if [center.x < w / 2] and ['right'] otherwise; a center exactly at
    [w / 2] gives ['right'].  The side is the same for any other hand and
    frame height with the same [center.x] and frame width: no other field
    takes part. *)
Theorem side_depends_only_on_center_x :
  forall (i : HandInfo) (h w : positive) (cx cy : Z),
  center i = Some (cx, cy) ->
  ((inject_Z cx < inject_Z (Zpos w) / 2)%Q ->
   side (Main.ninfo i h w) = Some left) /\
  (~ (inject_Z cx < inject_Z (Zpos w) / 2)%Q ->
   side (Main.ninfo i h w) = Some right) /\
  ((inject_Z cx == inject_Z (Zpos w) / 2)%Q ->
   side (Main.ninfo i h w) = Some right) /\
  (forall (i' : HandInfo) (h' : positive) (cy' : Z),
     center i' = Some (cx, cy') ->
     side (Main.ninfo i' h' w) = side (Main.ninfo i h w)).
Proof.
  intros i h w cx cy Hc. unfold Main.ninfo.
  rewrite MainFacts.ninfo_side, Hc, <- MainFacts.Qltb_half.
  rewrite <- Qltb_lt.
  destruct (Qltb (inject_Z cx) (inject_Z (Zpos w) / 2)) eqn:E.
  - repeat split; try congruence.
    + intro Heq. apply Qltb_lt in E. rewrite Heq in E.
      exfalso. exact (Qlt_irrefl _ E).
    + intros i' h' cy' Hc'.
      now rewrite MainFacts.ninfo_side, Hc', <- MainFacts.Qltb_half, E.
  - repeat split; try congruence.
    intros i' h' cy' Hc'.
    now rewrite MainFacts.ninfo_side, Hc', <- MainFacts.Qltb_half, E.
Qed.

Lemma side_depends_only_on_center_x_witness :
  center Toy.pinching = Some (320, 240) /\
  side (Main.ninfo Toy.pinching 480 640) = Some right.
Proof.
  assert (H : center Toy.pinching = Some (320, 240)) by reflexivity.
  split; [exact H|].
  apply (side_depends_only_on_center_x Toy.pinching 480 640 320 240 H).
  reflexivity.
Defined.

(** C8. Pinch detection is monotonic in the threshold: for a fixed hand
    and frame, hence a fixed [finger_dist_norm] map, a [pinch_finger] set
    with threshold [t1] is set, to the same finger, with any threshold
    [t2 >= t1]. *)
Theorem pinch_monotone_in_threshold :
  forall (t1 t2 : dist) (i : HandInfo) (h w : positive) (f : finger),
  dist_le t1 t2 ->
  pinch_finger (Main.ninfo_with t1 i h w) = Some f ->
  finger_dist_norm (Main.ninfo_with t2 i h w)
    = finger_dist_norm (Main.ninfo_with t1 i h w) /\
  pinch_finger (Main.ninfo_with t2 i h w) = Some f.
Proof.
  intros t1 t2 i h w f Hle Hf.
  assert (Hsame : finger_dist_norm (Main.ninfo_with t2 i h w)
                  = finger_dist_norm (Main.ninfo_with t1 i h w))
    by now rewrite !MainFacts.ninfo_finger_dist_norm.
  split; [exact Hsame|].
  rewrite MainFacts.ninfo_pinch_finger in *. rewrite Hsame.
  destruct (finger_dist_norm (Main.ninfo_with t1 i h w)) as [m|];
    [|discriminate].
  eapply MainFacts.finger_min_monotone; eassumption.
Qed.

Lemma pinch_monotone_in_threshold_witness :
  dist_le Main.pinch_thresh (Sqrt (1 # 100)) /\
  pinch_finger (Main.ninfo_with Main.pinch_thresh Toy.pinching 480 640)
    = Some index /\
  finger_dist_norm (Main.ninfo_with (Sqrt (1 # 100)) Toy.pinching 480 640)
    = finger_dist_norm (Main.ninfo_with Main.pinch_thresh Toy.pinching 480 640) /\
  pinch_finger (Main.ninfo_with (Sqrt (1 # 100)) Toy.pinching 480 640)
    = Some index.
Proof.
  assert (H1 : dist_le Main.pinch_thresh (Sqrt (1 # 100)))
    by (unfold dist_le, Qle; simpl; lia).
  assert (H2 : pinch_finger
                 (Main.ninfo_with Main.pinch_thresh Toy.pinching 480 640)
               = Some index) by reflexivity.
  split; [exact H1|]. split; [exact H2|].
  exact (pinch_monotone_in_threshold Main.pinch_thresh (Sqrt (1 # 100))
           Toy.pinching 480 640 index H1 H2).
Defined.

(** ** Scenarios *)

(** A region of area 2500 whose hull yields 5 well-separated points, next
    to a region below the threshold: one hand, [thumb_tip = (100, 100)],
    [index_tip = (180, 110)], distance [sqrt (80^2 + 10^2)]. *)
Example scenario_five_fingertips :
  option_map
    (fun r => map (fun i => (fingertips i, thumb_tip i, index_tip i,
                             distance_index_thumb i)) (fst r))
    (OpenCVHandTracker.process Toy.cv OpenCVHandTracker.init
       [Toy.speck; Toy.hand5])
  = Some [([(140, 90); (100, 100); (180, 110); (220, 150); (60, 160)],
           Some (100, 100), Some (180, 110), hypot 80 10)].
Proof. reflexivity. Qed.

(** Two regions both below the area threshold: no hand. *)
Example scenario_two_small_regions :
  option_map fst
    (OpenCVHandTracker.process Toy.cv OpenCVHandTracker.init
       [Toy.speck; Toy.speck])
  = Some [].
Proof. reflexivity. Qed.

(** Equal distances: the finger inserted first wins the pinch. *)
Example scenario_pinch_tie :
  Main.finger_min Main.pinch_thresh
    [(ring, Sqrt (1 # 1000)); (index, Sqrt (2 # 2000)); (middle, Sqrt (1 # 3))]
  = Some ring.
Proof. reflexivity. Qed.

(** * Further properties *)

(** ** The landmark backend: errors and invariants *)

Module MediaPipeMore.
Import MediaPipeHandTracker.

Lemma hand_info_None (pts : list point) (h w : positive) :
  hand_info pts h w = None <-> (length pts < 21)%nat.
Proof.
  do 21 (destruct pts as [|? pts];
         [split; [intros _; simpl; lia | reflexivity]|]).
  split; intro H; [discriminate | simpl in H; lia].
Qed.

Lemma process_loop_None (lms : list (list (Q * Q))) (h w : positive)
    (hands_out : list HandInfo) :
  process_loop lms h w hands_out = None <->
  Exists (fun lm => (length lm < 21)%nat) lms.
Proof.
  revert hands_out. induction lms as [|lm lms IH]; intro hands_out; simpl.
  - split; [discriminate | intro H; inversion H].
  - destruct (hand_info (pts_of lm h w) h w) as [i|] eqn:E; cbn [bind].
    + rewrite IH. split; intro H; [now right|].
      inversion H as [? ? Hlm|]; subst; [|assumption].
      exfalso. assert (E' : hand_info (pts_of lm h w) h w = None).
      { apply hand_info_None. unfold pts_of. now rewrite length_map. }
      congruence.
    + split; [intros _|reflexivity]. left.
      apply hand_info_None in E. unfold pts_of in E.
      now rewrite length_map in E.
Qed.

Lemma hand_info_ok (pts : list point) (h w : positive) (i : HandInfo) :
  hand_info pts h w = Some i -> landmark_hand_ok i.
Proof.
  intro H.
  destruct (Nat.lt_ge_cases (length pts) 21) as [Hlt|Hge].
  - apply hand_info_None with (h := h) (w := w) in Hlt. congruence.
  - do 21 (destruct pts as [|? pts]; [simpl in Hge; lia|]).
    cbn in H. injection H as <-. unfold landmark_hand_ok.
    cbn [detected fingertips thumb_tip index_tip fingertips_named
         distance_index_thumb length].
    split; [reflexivity|]. split; [reflexivity|].
    do 3 eexists. repeat (split; [reflexivity || (simpl; tauto)|]).
    apply dist2R_points.
Qed.

Lemma process_loop_ok (lms : list (list (Q * Q))) (h w : positive)
    (hands_out hands : list HandInfo) :
  Forall landmark_hand_ok hands_out ->
  process_loop lms h w hands_out = Some hands ->
  Forall landmark_hand_ok hands /\
  length hands = (length hands_out + length lms)%nat.
Proof.
  revert hands_out. induction lms as [|lm lms IH]; intros hands_out Hout; simpl.
  - intros [= <-]. split; [assumption | lia].
  - destruct (hand_info (pts_of lm h w) h w) as [i|] eqn:E; cbn [bind];
      [|discriminate].
    intro H. apply IH in H.
    + rewrite length_app in H. simpl in H. destruct H. split; [assumption|lia].
    + apply Forall_app. split; [assumption|].
      constructor; [|constructor]. eapply hand_info_ok; eassumption.
Qed.
End MediaPipeMore.

(** X1. [MediaPipeHandTracker.process] raises ([IndexError]) exactly when
    one of the landmark lists has fewer than 21 points; lists with more
    points are accepted. *)
Theorem landmark_process_fails_iff_short_list :
  forall (multi_hand_landmarks : list (list (Q * Q))) (h w : positive),
  MediaPipeHandTracker.process multi_hand_landmarks h w = None <->
  Exists (fun lm => (length lm < 21)%nat) multi_hand_landmarks.
Proof.
  intros lms h w. apply MediaPipeMore.process_loop_None.
Qed.

(** X2. Every hand [MediaPipeHandTracker.process] returns has [detected]
    set, exactly 5 fingertips, a [thumb_tip] and an [index_tip] that are
    among the fingertips and are the points named thumb and index, and a
    [distance_index_thumb] equal to their Euclidean distance; there is one
    hand per landmark list. *)
Theorem landmark_hands_well_formed :
  forall (multi_hand_landmarks : list (list (Q * Q))) (h w : positive)
         (hands : list HandInfo),
  MediaPipeHandTracker.process multi_hand_landmarks h w = Some hands ->
  Forall landmark_hand_ok hands /\
  length hands = length multi_hand_landmarks.
Proof.
  intros lms h w hands H.
  apply (MediaPipeMore.process_loop_ok lms h w [] hands); [constructor|exact H].
Qed.

Lemma landmark_hands_well_formed_witness :
  exists hands,
    MediaPipeHandTracker.process [Toy.lm21; Toy.lm21] 480 640 = Some hands /\
    Forall landmark_hand_ok hands /\
    length hands = 2%nat.
Proof.
  eexists. split; [reflexivity|].
  exact (landmark_hands_well_formed [Toy.lm21; Toy.lm21] 480 640 _ eq_refl).
Defined.

(** ** The heuristic backend: what a hand looks like *)

Module ExtractMore.
Import OpenCVHandTracker.

(** The keys that do not depend on the fingertips. *)
Lemma extract_fields (cv : cv2) (c : Contour cv) (h w : positive) :
  exists i,
    _extract_hand_info_from_contour cv c (h, w) = Some i /\
    detected i = true /\ landmarks i = None /\
    fingertips_named i = None /\ hand_size_norm i = None /\
    center i =
      Some (if negb (Qeq_bool (m00 (moments c)) 0)
            then (int_of_Q (m10 (moments c) / m00 (moments c)),
                  int_of_Q (m01 (moments c) / m00 (moments c)))
            else (Zpos w / 2, Zpos h / 2)).
Proof.
  destruct (TipsFacts.extract_spec cv c (h, w)) as (i & Hi & _).
  exists i. split; [exact Hi|].
  unfold _extract_hand_info_from_contour in Hi.
  destruct (Nat.leb 2 (length (tips_loop _ []))).
  - destruct (getitem _ 0); [|discriminate].
    destruct (getlast _); [|discriminate].
    cbn [bind] in Hi. injection Hi as <-. repeat split.
  - injection Hi as <-. repeat split.
Qed.

Lemma apart_false_euclid (p q : point) :
  apart p q = false <-> (euclid p q <= 25)%R.
Proof.
  split; intro H.
  - apply Rnot_gt_le. intro Hgt. apply TipsFacts.apart_euclid in Hgt.
    congruence.
  - apply not_true_is_false. intro Ht. apply TipsFacts.apart_euclid in Ht.
    lra.
Qed.

Lemma apart_irrefl (p : point) : apart p p = false.
Proof.
  apply apart_false_euclid. unfold euclid.
  replace (_ + _)%R with 0%R by ring. rewrite sqrt_0. lra.
Qed.

(** A point the walk does not keep is close to one it has kept. *)
Lemma tips_step_covers (tips : list point) (p : point) :
  exists q, In q (tips_step tips p) /\ apart p q = false.
Proof.
  unfold tips_step. destruct tips as [|t tips].
  - exists p. split; [now left | apply apart_irrefl].
  - destruct (forallb (apart p) (t :: tips)) eqn:E.
    + exists p. split; [apply in_or_app; right; now left | apply apart_irrefl].
    + assert (Hex : existsb (fun q => negb (apart p q)) (t :: tips) = true).
      { clear -E. induction (t :: tips) as [|a l IH]; [discriminate|].
        simpl in *. destruct (apart p a); simpl in *; auto. }
      apply existsb_exists in Hex. destruct Hex as (q & Hq & Hpq).
      exists q. split; [exact Hq | now apply negb_true_iff].
Qed.

Lemma tips_loop_covers (pts tips : list point) :
  (length (tips_loop pts tips) < 5)%nat ->
  forall p, In p pts ->
  exists q, In q (tips_loop pts tips) /\ apart p q = false.
Proof.
  revert tips. induction pts as [|p0 pts IH]; intros tips Hlen p Hp;
    [destruct Hp|].
  cbn [tips_loop] in *.
  destruct (Nat.leb 5 (length (tips_step tips p0))) eqn:E.
  - apply Nat.leb_le in E. lia.
  - destruct Hp as [->|Hp]; [|now apply IH].
    destruct (tips_step_covers tips p) as (q & Hq & Hpq).
    exists q. split; [|exact Hpq].
    destruct (TipsFacts.tips_loop_app pts (tips_step tips p)) as (r & -> & _).
    apply in_or_app. now left.
Qed.

(** Points that are pairwise apart are pairwise different. *)
Lemma separated_NoDup (l : list point) : separated l -> NoDup l.
Proof.
  intro Hsep. apply NoDup_nth_error. intros a b Ha Hab.
  destruct (Nat.eq_dec a b) as [|Hne]; [assumption|]. exfalso.
  destruct (nth_error l a) as [p|] eqn:Ea.
  - symmetry in Hab. pose proof (Hsep a b p p Hne Ea Hab) as H.
    rewrite apart_irrefl in H. discriminate.
  - apply nth_error_None in Ea. lia.
Qed.

Lemma separated_In (l : list point) (p q : point) :
  separated l -> In p l -> In q l -> p <> q -> apart p q = true.
Proof.
  intros Hsep Hp Hq Hne.
  apply In_nth_error in Hp, Hq. destruct Hp as (a & Ha), Hq as (b & Hb).
  apply (Hsep a b p q); [|assumption|assumption].
  intros ->. congruence.
Qed.
End ExtractMore.

(** X3. A hand of the heuristic backend never carries a pinch: for every
    contour, the normalised hand has no [finger_dist_norm], no
    [pinch_finger] and no [pinch_distance_norm], in any frame; its [side]
    is always set. *)
Theorem heuristic_hand_never_pinches :
  forall (cv : cv2) (c : Contour cv) (h w : positive),
  exists i,
    OpenCVHandTracker._extract_hand_info_from_contour cv c (h, w) = Some i /\
    finger_dist_norm (Main.ninfo i h w) = None /\
    pinch_finger (Main.ninfo i h w) = None /\
    pinch_distance_norm (Main.ninfo i h w) = None /\
    exists s, side (Main.ninfo i h w) = Some s.
Proof.
  intros cv c h w.
  destruct (ExtractMore.extract_fields cv c h w)
    as (i & Hi & _ & _ & Hnamed & _ & Hcenter).
  exists i. split; [exact Hi|]. unfold Main.ninfo.
  assert (Hfd : finger_dist_norm (Main.ninfo_with Main.pinch_thresh i h w) = None).
  { rewrite MainFacts.ninfo_finger_dist_norm, Hnamed.
    now destruct (thumb_tip i). }
  assert (Hpf : pinch_finger (Main.ninfo_with Main.pinch_thresh i h w) = None)
    by now rewrite MainFacts.ninfo_pinch_finger, Hfd.
  repeat split; try assumption.
  - now rewrite MainFacts.ninfo_pinch_distance_norm, Hpf.
  - rewrite MainFacts.ninfo_side, Hcenter.
    destruct (if negb _ then _ else _) as [cx cy]. eauto.
Qed.

(** X4. The walk over the hull is exhaustive: when it ends with fewer
    than 5 fingertips, every hull point is within 25 pixels of a
    fingertip that was kept. *)
Theorem fingertips_cover_hull :
  forall (cv : cv2) (c : Contour cv) (frame_shape : positive * positive),
  exists i,
    OpenCVHandTracker._extract_hand_info_from_contour cv c frame_shape = Some i /\
    ((length (fingertips i) < 5)%nat ->
     forall p, In p (convexHull c) ->
     exists q, In q (fingertips i) /\ (euclid p q <= 25)%R).
Proof.
  intros cv c hw.
  destruct (TipsFacts.extract_spec cv c hw) as (i & Hi & Hf & _).
  exists i. split; [exact Hi|]. rewrite Hf. intros Hlen p Hp.
  apply (sorted_In Z.ltb py) in Hp. fold (hull_sorted cv c) in Hp.
  destruct (ExtractMore.tips_loop_covers _ _ Hlen p Hp) as (q & Hq & Hpq).
  exists q. split; [exact Hq | now apply ExtractMore.apart_false_euclid].
Qed.

(** X5. With at least 2 fingertips the thumb and index tips are two
    different points and [distance_index_thumb] is strictly more than 25
    pixels: the distance of a heuristic hand is 0 or above 25. *)
Theorem thumb_and_index_are_apart :
  forall (cv : cv2) (c : Contour cv) (frame_shape : positive * positive),
  exists i,
    OpenCVHandTracker._extract_hand_info_from_contour cv c frame_shape = Some i /\
    ((2 <= length (fingertips i))%nat ->
     exists t x, thumb_tip i = Some t /\ index_tip i = Some x /\ t <> x /\
                 (dist2R (distance_index_thumb i) > 25)%R) /\
    (dist2R (distance_index_thumb i) = 0 \/
     dist2R (distance_index_thumb i) > 25)%R.
Proof.
  intros cv c hw.
  destruct (TipsFacts.extract_spec cv c hw) as (i & Hi & Hf & Hroles).
  exists i. split; [exact Hi|].
  assert (Hsep : separated (fingertips i)).
  { rewrite Hf. apply TipsFacts.tips_loop_separated, TipsFacts.separated_nil. }
  assert (Hbig : (2 <= length (fingertips i))%nat ->
     exists t x, thumb_tip i = Some t /\ index_tip i = Some x /\ t <> x /\
                 (dist2R (distance_index_thumb i) > 25)%R).
  { intro Hlen. pose proof Hlen as Hlen'. apply Nat.leb_le in Hlen'.
    rewrite Hlen' in Hroles.
    destruct Hroles as (t & x & Ht & Hx & Hthumb & Hindex & Hd).
    pose proof (sorted_perm Z.ltb px (firstn 3 (fingertips i))) as Hperm.
    fold (topk_sorted_x (fingertips i)) in Hperm.
    assert (Hnd : NoDup (topk_sorted_x (fingertips i))).
    { eapply Permutation_NoDup; [apply Permutation_sym, Hperm|].
      rewrite <- (firstn_skipn 3 (fingertips i)) in Hsep.
      apply ExtractMore.separated_NoDup in Hsep.
      now apply NoDup_app_remove_r in Hsep. }
    assert (Hlen3 : (2 <= length (topk_sorted_x (fingertips i)))%nat).
    { rewrite (Permutation_length Hperm), length_firstn. lia. }
    assert (Hne : t <> x).
    { intros ->. unfold getitem, getlast in *.
      rewrite NoDup_nth_error in Hnd.
      assert (E : 0%nat = (length (topk_sorted_x (fingertips i)) - 1)%nat).
      { apply Hnd; [lia | congruence]. }
      lia. }
    assert (Hin : forall y, In y (topk_sorted_x (fingertips i)) ->
                            In y (fingertips i)).
    { intros y Hy. eapply firstn_In, Permutation_in; eassumption. }
    exists t, x. repeat split; try assumption.
    rewrite Hd. unfold hypot. rewrite dist2R_points.
    apply TipsFacts.apart_euclid.
    apply (ExtractMore.separated_In (fingertips i)); auto.
    - apply Hin. eapply nth_error_In; exact Hx.
    - apply Hin. eapply nth_error_In; exact Ht. }
  split; [exact Hbig|].
  destruct (Nat.le_gt_cases 2 (length (fingertips i))) as [Hlen|Hlen].
  - right. destruct (Hbig Hlen) as (_ & _ & _ & _ & _ & H). exact H.
  - left. apply Nat.leb_gt in Hlen. rewrite Hlen in Hroles.
    destruct Hroles as (_ & _ & ->).
    unfold dist2R, dist_zero. simpl. rewrite RMicromega.Q2R_0. apply sqrt_0.
Qed.

(** ** The heuristic backend: frames *)

Module FramesMore.
Import OpenCVHandTracker.

Lemma filter_none {A : Type} (f : A -> bool) (l : list A) :
  Forall (fun x => f x = false) l -> filter f l = [].
Proof.
  induction 1 as [|x l Hx _ IH]; simpl; [reflexivity|]. now rewrite Hx.
Qed.

Lemma lastn_all {A : Type} (n : nat) (l : list A) :
  (length l <= n)%nat -> lastn n l = l.
Proof.
  intro H. unfold lastn. now replace (length l - n)%nat with 0%nat by lia.
Qed.

Lemma lastn_length {A : Type} (n : nat) (l : list A) :
  length (lastn n l) = Nat.min n (length l).
Proof. unfold lastn. rewrite length_skipn. lia. Qed.

Lemma tl_skipn {A : Type} (k : nat) (l : list A) :
  tl (skipn k l) = skipn (S k) l.
Proof.
  revert l. induction k as [|k IH]; intros [|a l]; try reflexivity.
  simpl. rewrite IH. now destruct l.
Qed.

(** Appending to a full [deque] is appending and keeping the last
    [maxlen] elements. *)
Lemma deque_append_lastn {A : Type} (n : nat) (l : list A) (x : A) :
  (0 < n)%nat -> deque_append n (lastn n l) x = lastn n (l ++ [x]).
Proof.
  intro Hn. unfold deque_append. rewrite lastn_length.
  unfold lastn. rewrite length_app. cbn [length].
  destruct (Nat.eqb (Nat.min n (length l)) n) eqn:E.
  - apply Nat.eqb_eq in E. rewrite tl_skipn.
    replace (length l + 1 - n)%nat with (S (length l - n))%nat by lia.
    rewrite skipn_app.
    replace (S (length l - n) - length l)%nat with 0%nat by lia.
    reflexivity.
  - apply Nat.eqb_neq in E.
    replace (length l - n)%nat with 0%nat by lia.
    replace (length l + 1 - n)%nat with 0%nat by lia.
    reflexivity.
Qed.

Section WithCv2.
Variable cv : cv2.

(** One call of [process], in terms of [has_contours]. *)
Lemma process_history (self : t) (frame : Frame cv) :
  exists hands,
    process cv self frame =
      Some (hands,
            if has_contours cv frame
            then {| history := deque_append maxlen (history self) hands |}
            else self).
Proof.
  destruct (ProcessFacts.process_spec cv self frame) as (hands & _ & H).
  exists hands. rewrite H. unfold has_contours.
  now destruct (findContours (_skin_mask cv frame)).
Qed.

Lemma process_frames_history (frames : list (Frame cv)) (past : list (list HandInfo)) :
  exists outs self',
    Loop.process_frames cv {| history := lastn maxlen past |} frames
      = Some (outs, self') /\
    length outs = length frames /\
    history self' = lastn maxlen (past ++ outputs_with_contours cv frames outs).
Proof.
  revert past. induction frames as [|frame frames IH]; intro past.
  - exists [], {| history := lastn maxlen past |}.
    unfold outputs_with_contours. simpl. now rewrite app_nil_r.
  - cbn [Loop.process_frames].
    destruct (process_history {| history := lastn maxlen past |} frame)
      as (hands & ->).
    cbn [bind snd fst history].
    destruct (has_contours cv frame) eqn:E.
    + rewrite deque_append_lastn by (unfold maxlen; lia).
      destruct (IH (past ++ [hands])) as (outs & self' & -> & Hlen & Hh).
      cbn [bind fst snd]. exists (hands :: outs), self'.
      split; [reflexivity|]. split; [simpl; lia|].
      rewrite Hh, <- app_assoc. unfold outputs_with_contours.
      cbn [combine filter fst]. rewrite E. reflexivity.
    + destruct (IH past) as (outs & self' & -> & Hlen & Hh).
      cbn [bind fst snd]. exists (hands :: outs), self'.
      split; [reflexivity|]. split; [simpl; lia|].
      rewrite Hh. unfold outputs_with_contours.
      cbn [combine filter fst]. rewrite E. reflexivity.
Qed.
End WithCv2.
End FramesMore.

(** X6. A frame whose contours are all below the minimal area yields no
    hand; when there is at least one such contour the empty list is still
    appended to the history. *)
Theorem small_contours_give_no_hand :
  forall (cv : cv2) (self : OpenCVHandTracker.t) (frame : Frame cv),
  Forall (fun c => (contourArea c < 2000)%Q)
         (findContours (OpenCVHandTracker._skin_mask cv frame)) ->
  OpenCVHandTracker.process cv self frame =
    Some ([],
          if has_contours cv frame
          then {| OpenCVHandTracker.history :=
                    deque_append 6 (OpenCVHandTracker.history self) [] |}
          else self).
Proof.
  intros cv self frame Hsmall.
  destruct (FramesMore.process_history cv self frame) as (hands & Hp).
  destruct (ProcessFacts.process_spec cv self frame) as (hands' & Hf & Hp').
  assert (hands' = hands) by congruence. subst hands'.
  assert (Hnone : filter (OpenCVHandTracker.big_enough cv)
            (firstn 2 (OpenCVHandTracker.contours_sorted cv
               (findContours (OpenCVHandTracker._skin_mask cv frame)))) = []).
  { apply FramesMore.filter_none. rewrite Forall_forall in *.
    intros c Hc. apply firstn_In in Hc.
    apply (Permutation_in _ (ProcessFacts.contours_sorted_perm cv _)) in Hc.
    apply Hsmall in Hc. unfold OpenCVHandTracker.big_enough.
    apply negb_false_iff. now apply Qltb_lt. }
  rewrite Hnone in Hf. inversion Hf; subst. exact Hp.
Qed.

Lemma small_contours_give_no_hand_witness :
  Forall (fun c => (contourArea c < 2000)%Q)
         (findContours (OpenCVHandTracker._skin_mask Toy.cv
                          [Toy.speck; Toy.speck])) /\
  OpenCVHandTracker.process Toy.cv OpenCVHandTracker.init [Toy.speck; Toy.speck]
    = Some ([], {| OpenCVHandTracker.history := [[]] |}).
Proof.
  assert (H : Forall (fun c => (contourArea c < 2000)%Q)
                (findContours (OpenCVHandTracker._skin_mask Toy.cv
                                 [Toy.speck; Toy.speck])))
    by (repeat constructor).
  split; [exact H|].
  exact (small_contours_give_no_hand Toy.cv OpenCVHandTracker.init
           [Toy.speck; Toy.speck] H).
Defined.

(** X7. After any sequence of frames processed by a fresh tracker, the
    history holds the last 6 of the lists returned for the frames that had
    contours, oldest first; the lists returned for frames without contours
    are not in it.  No call raises. *)
Theorem history_is_last_six_outputs :
  forall (cv : cv2) (frames : list (Frame cv)),
  exists outs self',
    Loop.process_frames cv OpenCVHandTracker.init frames = Some (outs, self') /\
    length outs = length frames /\
    OpenCVHandTracker.history self' =
      lastn 6 (outputs_with_contours cv frames outs) /\
    (length (OpenCVHandTracker.history self') <= 6)%nat.
Proof.
  intros cv frames.
  destruct (FramesMore.process_frames_history cv frames [])
    as (outs & self' & Hp & Hlen & Hh).
  exists outs, self'. split; [exact Hp|]. split; [exact Hlen|].
  split; [exact Hh|]. rewrite Hh, FramesMore.lastn_length.
  unfold OpenCVHandTracker.maxlen. lia.
Qed.

(** X8. A region with a zero area moment is centred on the frame,
    [(w // 2, h // 2)], and the hand is then classified ['right'] in a
    frame of even width and ['left'] in one of odd width. *)
Theorem degenerate_region_center_and_side :
  forall (cv : cv2) (c : Contour cv) (h w : positive),
  (m00 (moments c) == 0)%Q ->
  exists i,
    OpenCVHandTracker._extract_hand_info_from_contour cv c (h, w) = Some i /\
    center i = Some (Zpos w / 2, Zpos h / 2) /\
    side (Main.ninfo i h w) = Some (if Z.even (Zpos w) then right else left).
Proof.
  intros cv c h w Hm.
  destruct (ExtractMore.extract_fields cv c h w)
    as (i & Hi & _ & _ & _ & _ & Hcenter).
  apply Qeq_bool_iff in Hm. rewrite Hm in Hcenter. cbn [negb] in Hcenter.
  exists i. split; [exact Hi|]. split; [exact Hcenter|].
  unfold Main.ninfo. rewrite MainFacts.ninfo_side, Hcenter. f_equal.
  pose proof (Z.div_mod (Zpos w) 2 ltac:(lia)) as Hdiv.
  pose proof (Z.mod_pos_bound (Zpos w) 2 ltac:(lia)) as Hmod.
  rewrite Zeven_mod. 
  destruct (Z.ltb_spec (2 * (Zpos w / 2)) (Zpos w)),
           (Z.eqb_spec (Zpos w mod 2) 0); try reflexivity; lia.
Qed.

Lemma degenerate_region_center_and_side_witness :
  (m00 (moments (c := Toy.cv) Toy.speck) == 0)%Q /\
  exists i,
    OpenCVHandTracker._extract_hand_info_from_contour
      Toy.cv Toy.speck (480%positive, 641%positive) = Some i /\
    center i = Some (320, 240) /\
    side (Main.ninfo i 480 641) = Some left.
Proof.
  assert (H : (m00 (moments (c := Toy.cv) Toy.speck) == 0)%Q) by reflexivity.
  split; [exact H|].
  exact (degenerate_region_center_and_side Toy.cv Toy.speck 480 641 H).
Defined.

(** ** The Gesture Derivation Stage: more on what it derives *)

Module DeriveMore.
Import Main.

Lemma frame_diag_R_pos (h w : positive) : (0 < dist2R (frame_diag h w))%R.
Proof.
  unfold dist2R. apply sqrt_lt_R0.
  pose proof (frame_diag_pos h w) as H. apply Qlt_Rlt in H.
  now rewrite RMicromega.Q2R_0 in H.
Qed.

(** The keys of [dist_map] are names of [fingertips_named] other than
    the thumb, whatever the items. *)
Lemma dist_map_loop_keys items thumb_pt diag dist_map f :
  In f (keys (dist_map_loop items thumb_pt diag dist_map)) ->
  In f (keys dist_map) \/ (In f (keys items) /\ f <> thumb).
Proof.
  revert dist_map. induction items as [|[fname pt] items IH];
    intros dist_map H; simpl in *; [now left|].
  destruct (finger_eqb fname thumb) eqn:E.
  - apply IH in H. destruct H as [H|[H1 H2]]; [now left | right; auto].
  - apply IH in H. destruct H as [H|[H1 H2]]; [|right; auto].
    apply dict_set_keys_In in H. destruct H as [->|H]; [|now left].
    right. split; [now left | now apply finger_eqb_neq].
Qed.

Lemma dict_get_keys {V : Type} (k : finger) (v : V) (d : dict V) :
  dict_get k d = Some v -> In k (keys d).
Proof.
  intro H. apply dict_get_In in H. unfold keys.
  change k with (fst (k, v)). now apply in_map.
Qed.

Lemma finger_min_in (th : dist) (m : dict dist) (f : finger) :
  finger_min th m = Some f ->
  exists v, In (f, v) m /\ dist_lt v th.
Proof.
  intro H. destruct m as [|kv m]; [discriminate|].
  destruct (MainFacts.finger_min_spec th (kv :: m)) as (f' & v & Hin & _ & Hfm);
    [discriminate|].
  rewrite Hfm in H. destruct (dist_ltb v th) eqn:E; [|discriminate].
  injection H as ->. exists v. split; [exact Hin | now apply dist_ltb_lt].
Qed.
End DeriveMore.

(** X9. Normalisation round trip: for every hand and frame,
    [distance_norm] times the frame diagonal is [distance_index_thumb]. *)
Theorem distance_norm_round_trip :
  forall (i : HandInfo) (h w : positive),
  (dist2R (distance_norm (Main.ninfo i h w)) * dist2R (frame_diag h w))%R
  = dist2R (distance_index_thumb i).
Proof.
  intros i h w.
  assert (H : distance_norm (Main.ninfo i h w) =
              dist_div (distance_index_thumb i) (frame_diag h w)).
  { unfold Main.ninfo, Main.ninfo_with.
    destruct (thumb_tip i) as [t|]; [|reflexivity].
    destruct (fingertips_named i) as [[|kv named]|]; reflexivity. }
  rewrite H, dist2R_div by apply frame_diag_pos.
  pose proof (DeriveMore.frame_diag_R_pos h w). field. lra.
Qed.


(** X11. For a hand of the landmark backend normalised in its own frame,
    [finger_dist_norm] has the keys index, middle, ring, pinky in this
    order, its index entry is [distance_norm], and [side] is set. *)
Theorem landmark_hand_normalised :
  forall (pts : list point) (h w : positive) (i : HandInfo),
  MediaPipeHandTracker.hand_info pts h w = Some i ->
  exists m s,
    finger_dist_norm (Main.ninfo i h w) = Some m /\
    keys m = [index; middle; ring; pinky] /\
    dict_get index m = Some (distance_norm (Main.ninfo i h w)) /\
    side (Main.ninfo i h w) = Some s.
Proof.
  intros pts h w i H.
  destruct (Nat.lt_ge_cases (length pts) 21) as [Hlt|Hge].
  - apply MediaPipeMore.hand_info_None with (h := h) (w := w) in Hlt.
    congruence.
  - do 21 (destruct pts as [|? pts]; [simpl in Hge; lia|]).
    cbn in H. injection H as <-.
    eexists _, _. repeat split.
Qed.

Lemma landmark_hand_normalised_witness :
  exists i,
    MediaPipeHandTracker.hand_info
      (MediaPipeHandTracker.pts_of Toy.lm21 480 640) 480 640 = Some i /\
    exists m s,
      finger_dist_norm (Main.ninfo i 480 640) = Some m /\
      keys m = [index; middle; ring; pinky] /\
      dict_get index m = Some (distance_norm (Main.ninfo i 480 640)) /\
      side (Main.ninfo i 480 640) = Some s.
Proof.
  eexists. split; [reflexivity|].
  exact (landmark_hand_normalised
           (MediaPipeHandTracker.pts_of Toy.lm21 480 640) 480 640 _ eq_refl).
Defined.

(** X12. A [pinch_finger], when set, is never the thumb: it is a finger
    named in [fingertips_named] of a hand that has a [thumb_tip], and
    [pinch_distance_norm] is set with it, to its entry of
    [finger_dist_norm], which is strictly below 0.05. *)
Theorem pinch_finger_is_a_named_non_thumb_finger :
  forall (i : HandInfo) (h w : positive) (f : finger),
  pinch_finger (Main.ninfo i h w) = Some f ->
  f <> thumb /\
  exists t named m v,
    thumb_tip i = Some t /\
    fingertips_named i = Some named /\ In f (keys named) /\
    finger_dist_norm (Main.ninfo i h w) = Some m /\
    dict_get f m = Some v /\
    pinch_distance_norm (Main.ninfo i h w) = Some v /\
    (dist2R v < 5 / 100)%R.
Proof.
  intros i h w f Hf. unfold Main.ninfo in *.
  pose proof (MainFacts.ninfo_pinch_distance_norm Main.pinch_thresh i h w) as Hpd.
  rewrite MainFacts.ninfo_pinch_finger in Hf.
  rewrite MainFacts.ninfo_pinch_finger in Hpd.
  pose proof (MainFacts.ninfo_finger_dist_norm Main.pinch_thresh i h w) as Hm.
  destruct (finger_dist_norm (Main.ninfo_with Main.pinch_thresh i h w))
    as [m|]; [|discriminate].
  rewrite Hf in Hpd.
  destruct (thumb_tip i) as [t|]; [|discriminate].
  destruct (fingertips_named i) as [[|kv named]|]; try discriminate.
  assert (Hm' : m = Main.dist_map_loop (kv :: named) t (frame_diag h w) [])
    by congruence.
  clear Hm. rename Hm' into Hm.
  destruct (DeriveMore.finger_min_in _ _ _ Hf) as (v & Hin & Hlt).
  assert (Hnd : NoDup (keys m))
    by (rewrite Hm; apply MainFacts.dist_map_loop_NoDup; constructor).
  assert (Hwf : dist_wf v).
  { assert (Hall : Forall (fun kv => dist_wf (snd kv)) m).
    { rewrite Hm. apply MainFacts.dist_map_loop_wf; [|constructor].
      apply sqrt_Z_wf, sum_squares_nonneg. }
    rewrite Forall_forall in Hall. exact (Hall _ Hin). }
  assert (Hget : dict_get f m = Some v) by now apply In_dict_get.
  assert (Hkey : In f (keys (kv :: named)) /\ f <> thumb).
  { apply DeriveMore.dict_get_keys in Hget. rewrite Hm in Hget.
    apply DeriveMore.dist_map_loop_keys in Hget.
    destruct Hget as [[]|Hk]. exact Hk. }
  split; [apply Hkey|].
  exists t, (kv :: named), m, v. repeat split; try tauto.
  - congruence.
  - rewrite <- dist2R_pinch_thresh. apply dist2R_lt; [exact Hwf| |exact Hlt].
    unfold dist_wf, Qle. simpl. lia.
Qed.

Lemma pinch_finger_is_a_named_non_thumb_finger_witness :
  pinch_finger (Main.ninfo Toy.pinching 480 640) = Some index /\
  index <> thumb /\
  exists t named m v,
    thumb_tip Toy.pinching = Some t /\
    fingertips_named Toy.pinching = Some named /\ In index (keys named) /\
    finger_dist_norm (Main.ninfo Toy.pinching 480 640) = Some m /\
    dict_get index m = Some v /\
    pinch_distance_norm (Main.ninfo Toy.pinching 480 640) = Some v /\
    (dist2R v < 5 / 100)%R.
Proof.
  assert (H : pinch_finger (Main.ninfo Toy.pinching 480 640) = Some index)
    by reflexivity.
  split; [exact H|].
  exact (pinch_finger_is_a_named_non_thumb_finger Toy.pinching 480 640 index H).
Defined.

(** ** [draw_overlay] *)

Module OverlayFacts.
Import Overlay.

Lemma count_app (f : Draw -> bool) (l1 l2 : list Draw) :
  length (filter f (l1 ++ l2))
  = (length (filter f l1) + length (filter f l2))%nat.
Proof. now rewrite filter_app, length_app. Qed.

Lemma draw_named_counts (palette : dict (Z * Z * Z)) (items : list (finger * point)) :
  exists ds, draw_named palette items = Some ds /\
    length (filter is_circle ds) = length items /\
    length (filter is_text ds) = length items.
Proof.
  induction items as [|[name tip] items (ds & IH & Hc & Ht)].
  - exists []. repeat split.
  - cbn [draw_named]. rewrite IH.
    assert (Hl : exists label, initial (finger_name name) = Some label)
      by (destruct name; eexists; reflexivity).
    destruct Hl as (label & ->). cbn [bind]. eexists. split; [reflexivity|].
    simpl. rewrite Hc, Ht. split; reflexivity.
Qed.

Lemma draw_hand_counts (hi : Z) (n : NormalizedHandInfo) :
  exists ds, draw_hand hi n = Some ds /\
    length (filter is_circle ds)
      = (count_some (center (info n)) + marked_tips n)%nat /\
    length (filter is_text ds)
      = (match fingertips_named (info n) with
         | Some ((_ :: _) as named) => length named
         | _ => 0
         end + count_some (pinch_finger n))%nat.
Proof.
  unfold draw_hand, marked_tips.
  set (cc := if hi =? 0 then _ else _).
  assert (Htips : exists tips,
    match fingertips_named (info n) with
    | Some ((_ :: _) as named) =>
        draw_named match side n with
                   | Some right => finger_colors_right
                   | _ => finger_colors_left
                   end named
    | _ => Some (map (fun tip => circle tip 6 (0, 200, 255) (-1))
                     (fingertips (info n)))
    end = Some tips /\
    length (filter is_circle tips)
      = match fingertips_named (info n) with
        | Some ((_ :: _) as named) => length named
        | _ => length (fingertips (info n))
        end /\
    length (filter is_text tips)
      = match fingertips_named (info n) with
        | Some ((_ :: _) as named) => length named
        | _ => 0%nat
        end).
  { assert (Hplain : forall l : list point,
              length (filter is_circle
                        (map (fun tip => circle tip 6 (0, 200, 255) (-1)) l))
              = length l /\
              length (filter is_text
                        (map (fun tip => circle tip 6 (0, 200, 255) (-1)) l))
              = 0%nat).
    { induction l as [|a l [IH1 IH2]]; [split; reflexivity|].
      simpl. rewrite IH1, IH2. split; reflexivity. }
    destruct (fingertips_named (info n)) as [[|kv named]|].
    - eexists. split; [reflexivity | apply Hplain].
    - apply draw_named_counts.
    - eexists. split; [reflexivity | apply Hplain]. }
  destruct Htips as (tips & -> & Hc & Ht). cbn [bind].
  eexists. split; [reflexivity|].
  rewrite !count_app, Hc, Ht.
  destruct (center (info n)), (pinch_finger n); simpl; split; lia.
Qed.

Lemma draw_hands_counts (hi : Z) (hands : list NormalizedHandInfo) :
  exists ds, draw_hands hi hands = Some ds /\
    length (filter is_circle ds)
      = list_sum (map (fun n => count_some (center (info n)) + marked_tips n)%nat
                      hands) /\
    length (filter is_text ds)
      = list_sum (map (fun n =>
                         match fingertips_named (info n) with
                         | Some ((_ :: _) as named) => length named
                         | _ => 0
                         end + count_some (pinch_finger n))%nat hands).
Proof.
  revert hi. induction hands as [|n hands IH]; intro hi.
  - exists []. repeat split.
  - cbn [draw_hands].
    destruct (draw_hand_counts hi n) as (ds & -> & Hc & Ht).
    destruct (IH (hi + 1)) as (ds' & -> & Hc' & Ht'). cbn [bind].
    eexists. split; [reflexivity|].
    rewrite !count_app, Hc, Ht, Hc', Ht'. split; reflexivity.
Qed.
End OverlayFacts.

Module OverlayMarks.
Import Overlay.

Lemma draw_named_marks (s : option Side) (named : list (finger * point)) :
  draw_named match s with
             | Some right => finger_colors_right
             | _ => finger_colors_left
             end named
  = Some (flat_map
            (fun kv =>
               [circle (snd kv) 7 (finger_color s (fst kv)) (-1);
                putText (finger_letter (fst kv))
                  (px (snd kv) + 6, py (snd kv) - 6) 0.5 (255, 255, 255) 1])
            named).
Proof.
  induction named as [|[name tip] named IH]; [reflexivity|].
  cbn [draw_named flat_map]. rewrite IH.
  assert (Hl : initial (finger_name name) = Some (finger_letter name))
    by (destruct name; reflexivity).
  assert (Hc : dict_get_default name
                 match s with
                 | Some right => finger_colors_right
                 | _ => finger_colors_left
                 end (0, 200, 255) = finger_color s name)
    by (destruct s as [[|]|], name; reflexivity).
  rewrite Hl, Hc. reflexivity.
Qed.

Lemma draw_hand_marks (k : nat) (n : NormalizedHandInfo) :
  draw_hand (Z.of_nat k) n = Some (hand_marks k n).
Proof.
  unfold draw_hand, hand_marks.
  assert (Hcol : (if Z.of_nat k =? 0 then (0, 200, 0) else (0, 150, 255))
                 = center_color k) by (destruct k; reflexivity).
  rewrite Hcol.
  destruct (fingertips_named (info n)) as [[|kv named]|]; try reflexivity.
  rewrite draw_named_marks. reflexivity.
Qed.

Lemma draw_hands_marks (k : nat) (hands : list NormalizedHandInfo) :
  draw_hands (Z.of_nat k) hands
  = Some (concat (map (fun kn => hand_marks (fst kn) (snd kn))
                      (combine (seq k (length hands)) hands))).
Proof.
  revert k. induction hands as [|n hands IH]; intro k; [reflexivity|].
  cbn [draw_hands length seq combine map concat fst snd].
  rewrite draw_hand_marks.
  replace (Z.of_nat k + 1) with (Z.of_nat (S k)) by lia.
  rewrite IH. reflexivity.
Qed.
End OverlayMarks.

(** X13. [draw_overlay] never raises.  Given [None] it draws nothing.
    Given a list of hands it draws, hand after hand, the marks of each
    hand ([hand_marks]: the ring at its centre, a filled circle and a
    letter at each named fingertip in the colour of the finger on the
    hand's side, or a filled circle at each plain fingertip, and the
    pinch text on the line of the hand), and after them the status line
    at [(10, h - 10)] that gives the backend and the number of hands.  In
    total there is one circle per centre and per marked fingertip and one
    text per named fingertip and per pinch. *)
Theorem draw_overlay_marks :
  forall (h : positive) (hands : list NormalizedHandInfo)
         (backend_name : String.string),
  Overlay.draw_overlay h None backend_name = Some [] /\
  Overlay.draw_overlay h (Some hands) backend_name
    = Some (overlay_marks hands ++ [status_line h backend_name (length hands)]) /\
  length (filter is_circle (overlay_marks hands))
    = list_sum (map (fun n => count_some (center (info n)) + marked_tips n)%nat
                    hands) /\
  length (filter is_text (overlay_marks hands))
    = list_sum (map (fun n =>
                       match fingertips_named (info n) with
                       | Some ((_ :: _) as named) => length named
                       | _ => 0
                       end + count_some (pinch_finger n))%nat hands).
Proof.
  intros h hands name. split; [reflexivity|].
  pose proof (OverlayMarks.draw_hands_marks 0 hands) as Hm.
  change (Z.of_nat 0) with 0 in Hm. fold (overlay_marks hands) in Hm.
  destruct (OverlayFacts.draw_hands_counts 0 hands) as (ds & Hd & Hc & Ht).
  assert (ds = overlay_marks hands) by congruence. subst ds.
  split; [|split; assumption].
  unfold Overlay.draw_overlay. rewrite Hm. reflexivity.
Qed.

(** ** Keys, logging and streaming *)

Module MainLoopFacts.
Import MainLoop.

Lemma land_255 (k : Z) : Z.land k 255 = k mod 256.
Proof. change 255 with (Z.ones 8). now rewrite Z.land_ones by lia. Qed.

Section Invariant.
Variable HAS_WEBSOCKETS : bool.
Variable hand_log0 : list Row.

Lemma inv_setup : loop_invariant hand_log0 (setup HAS_WEBSOCKETS hand_log0).
Proof.
  unfold setup, start_ws_server.
  destruct HAS_WEBSOCKETS; simpl; (split; [split; discriminate | left; auto]).
Qed.

Lemma inv_start_csv (st : State) : loop_invariant hand_log0 st -> loop_invariant hand_log0 (start_csv st).
Proof.
  intros [Hc Ha]. unfold start_csv.
  destruct (csv_logging st) eqn:E; [now split|].
  split; [split; reflexivity|]. right. cbn [hand_log].
  destruct Ha as [[-> _]|(rest & ->)].
  - now exists [].
  - exists (rest ++ [header]). now rewrite <- app_assoc.
Qed.

Lemma inv_stop_csv (st : State) : loop_invariant hand_log0 st -> loop_invariant hand_log0 (stop_csv st).
Proof.
  intros [Hc Ha]. unfold stop_csv.
  destruct (csv_logging st) eqn:E; [|now split]. cbn [negb].
  split.
  - unfold csv_consistent. cbn [csv_logging csv_file].
    destruct (csv_file st); split; discriminate.
  - destruct Ha as [[_ H]|H]; [congruence | now right].
Qed.

Lemma inv_handle_key (st : State) (k : Z) :
  loop_invariant hand_log0 st -> loop_invariant hand_log0 (snd (handle_key HAS_WEBSOCKETS st k)).
Proof.
  intro H. unfold handle_key.
  destruct ((Z.land k 255 =? 113) || (Z.land k 255 =? 27)); [exact H|].
  destruct (Z.land k 255 =? 116); [exact H|].
  destruct (Z.land k 255 =? 99).
  - cbn [snd]. destruct (negb (csv_logging st));
      [now apply inv_start_csv | now apply inv_stop_csv].
  - destruct (Z.land k 255 =? 119); [|exact H]. cbn [snd].
    unfold start_ws_server, stop_ws_server.
    destruct (negb (websocket_enabled st)); [|exact H].
    destruct (negb HAS_WEBSOCKETS); [exact H|].
    destruct (websocket_enabled st); exact H.
Qed.

Lemma inv_log_and_stream (st : State) (r : Round) :
  loop_invariant hand_log0 st -> loop_invariant hand_log0 (log_and_stream HAS_WEBSOCKETS st r).
Proof.
  intros [Hc Ha]. split; [exact Hc|].
  unfold appended_since, log_and_stream. cbn [hand_log csv_logging].
  destruct (csv_logging st) eqn:E.
  - destruct Ha as [[_ H]|(rest & Hrest)]; [congruence|]. right.
    destruct (Main.norm_hands _ _ _); [now exists rest|].
    eexists. rewrite Hrest, <- app_assoc. reflexivity.
  - destruct Ha as [[H _]|H]; [left; auto | now right].
Qed.

Lemma inv_loop (st : State) (rounds : list Round) :
  loop_invariant hand_log0 st -> loop_invariant hand_log0 (loop HAS_WEBSOCKETS st rounds).
Proof.
  revert st. induction rounds as [|r rounds IH]; intros st H; [exact H|].
  cbn [loop]. pose proof (inv_handle_key st (r_waitKey r) H) as Hk.
  destruct (handle_key HAS_WEBSOCKETS st (r_waitKey r)) as [break st'].
  cbn [snd] in Hk. destruct break; [exact Hk|].
  apply IH. now apply inv_log_and_stream.
Qed.
End Invariant.

Lemma no_stream_loop (st : State) (rounds : list Round) :
  no_stream st -> no_stream (loop false st rounds).
Proof.
  revert st. induction rounds as [|r rounds IH]; intros st H; [exact H|].
  cbn [loop].
  assert (Hk : no_stream (snd (handle_key false st (r_waitKey r)))).
  { unfold handle_key.
    destruct ((_ =? 113) || (_ =? 27)); [exact H|].
    destruct (_ =? 116); [exact H|].
    destruct (_ =? 99).
    - cbn [snd]. unfold start_csv, stop_csv.
      destruct (negb (csv_logging st)), (csv_logging st); exact H.
    - destruct (_ =? 119); [|exact H]. cbn [snd].
      destruct H as (He & Ht & Hq). rewrite He. exact (conj He (conj Ht Hq)). }
  destruct (handle_key false st (r_waitKey r)) as [break st'].
  cbn [snd] in Hk. destruct break; [exact Hk|].
  apply IH. destruct Hk as (He & Ht & Hq).
  unfold no_stream, log_and_stream. cbn [websocket_enabled ws_threads queued].
  rewrite He. auto.
Qed.

Lemma csv_rows_spec (ts : Q) (fc : Z) (h w : positive) (hands : list HandInfo)
    (k : Z) :
  let rows := csv_rows ts fc k (Main.norm_hands hands h w) in
  length rows
    = list_sum (map (fun i => count_some (index_tip i) + count_some (thumb_tip i))%nat
                    hands) /\
  Forall (fun row =>
            exists hi label x y i,
              row = Data ts fc hi label x y (distance_norm (Main.ninfo i h w)) /\
              k <= hi < k + Z.of_nat (length hands) /\
              nth_error hands (Z.to_nat (hi - k)) = Some i /\
              ((label = "index"%string /\
                index_norm (Main.ninfo i h w) = Some (x, y)) \/
               (label = "thumb"%string /\
                thumb_norm (Main.ninfo i h w) = Some (x, y))))
         rows.
Proof.
  revert k. induction hands as [|i hands IH]; intro k.
  - split; [reflexivity | constructor].
  - cbn [Main.norm_hands map csv_rows]. fold (Main.norm_hands hands h w).
    destruct (IH (k + 1)) as [Hlen Hall]. split.
    + rewrite length_app, Hlen. cbn [list_sum]. f_equal.
      unfold hand_rows, Main.ninfo, Main.ninfo_with.
      destruct (thumb_tip i) as [t|], (index_tip i) as [x|];
        try destruct (fingertips_named i) as [[|kv named]|];
        cbn [index_norm thumb_norm option_map Main.norm_pt];
        reflexivity.
    + apply Forall_app. split.
      * unfold hand_rows.
        assert (Hk : k <= k < k + Z.of_nat (length (i :: hands)))
          by (cbn [length]; lia).
        assert (Hn : nth_error (i :: hands) (Z.to_nat (k - k)) = Some i)
          by (now rewrite Z.sub_diag).
        apply Forall_app. split.
        -- destruct (index_norm (Main.ninfo i h w)) as [[x y]|] eqn:E;
             [|constructor].
           constructor; [|constructor]. exists k, "index"%string, x, y, i.
           repeat split; try assumption; try lia. now left.
        -- destruct (thumb_norm (Main.ninfo i h w)) as [[x y]|] eqn:E;
             [|constructor].
           constructor; [|constructor]. exists k, "thumb"%string, x, y, i.
           repeat split; try assumption; try lia. now right.
      * eapply Forall_impl; [|exact Hall].
        intros row (hi & label & x & y & i' & -> & Hhi & Hn & Hl).
        exists hi, label, x, y, i'. split; [reflexivity|].
        split; [cbn [length]; lia|]. split; [|exact Hl].
        replace (Z.to_nat (hi - k)) with (S (Z.to_nat (hi - (k + 1)))) by lia.
        exact Hn.
Qed.

Lemma payload_hands_spec (h w : positive) (hands : list HandInfo) (k : Z) :
  let ps := payload_hands k (Main.norm_hands hands h w) in
  length ps = length hands /\
  forall (j : nat) (i : HandInfo),
    nth_error hands j = Some i ->
    nth_error ps j = Some (hand_payload (k + Z.of_nat j) (Main.ninfo i h w)).
Proof.
  revert k. induction hands as [|i0 hands IH]; intro k.
  - split; [reflexivity|]. intros [|j] i H; discriminate.
  - cbn [Main.norm_hands map payload_hands]. fold (Main.norm_hands hands h w).
    destruct (IH (k + 1)) as [Hlen Hnth]. split; [simpl; now rewrite Hlen|].
    intros [|j] i H.
    + simpl in H. injection H as ->. simpl. now rewrite Z.add_0_r.
    + simpl in H. cbn [nth_error]. rewrite (Hnth j i H).
      do 2 f_equal. lia.
Qed.
End MainLoopFacts.

(** X14. Only the low byte of [cv2.waitKey] is looked at: two values
    that differ by a multiple of 256 are handled alike, and [-1] (no key
    pressed) neither breaks the loop nor changes anything. *)
Theorem key_is_read_modulo_256 :
  forall (HAS_WEBSOCKETS : bool) (st : MainLoop.State) (k n : Z),
  MainLoop.handle_key HAS_WEBSOCKETS st (k + 256 * n)
    = MainLoop.handle_key HAS_WEBSOCKETS st k /\
  MainLoop.handle_key HAS_WEBSOCKETS st (-1) = (false, st).
Proof.
  intros HAS st k n. split; [|reflexivity].
  unfold MainLoop.handle_key. rewrite !MainLoopFacts.land_255.
  now rewrite (Z.mul_comm 256 n), Z_mod_plus_full.
Qed.

(** X15. Whatever the keys and frames, when [main] is left the log is
    closed: [csv_logging] is off and no file is open.  [hand_log.csv] is
    only appended to, and what is appended, if anything, starts with a
    header row. *)
Theorem main_leaves_log_closed :
  forall (HAS_WEBSOCKETS : bool) (hand_log0 : list MainLoop.Row)
         (rounds : list MainLoop.Round),
  let st := MainLoop.main HAS_WEBSOCKETS hand_log0 rounds in
  MainLoop.csv_logging st = false /\
  MainLoop.csv_file st <> Some true /\
  exists appended,
    MainLoop.hand_log st = hand_log0 ++ appended /\
    (appended = [] \/ exists rest, appended = MainLoop.header :: rest).
Proof.
  intros HAS log0 rounds st.
  pose proof (MainLoopFacts.inv_loop HAS log0 _ rounds
                (MainLoopFacts.inv_setup HAS log0)) as Hloop.
  pose proof (MainLoopFacts.inv_stop_csv log0 _ Hloop) as [Hc Ha].
  fold (MainLoop.main HAS log0 rounds) in Hc, Ha. fold st in Hc, Ha.
  assert (Hoff : MainLoop.csv_logging st = false).
  { unfold st, MainLoop.main, MainLoop.stop_csv.
    destruct (MainLoop.csv_logging (MainLoop.loop _ _ _)) eqn:E;
      [reflexivity | exact E]. }
  split; [exact Hoff|]. split.
  - intro H. apply Hc in H. congruence.
  - destruct Ha as [[-> _]|(rest & ->)].
    + exists []. split; [now rewrite app_nil_r | now left].
    + eexists. split; [reflexivity|]. right. now exists rest.
Qed.

(** X16. Without the [websockets] package streaming is never on: no
    server thread is started and no payload is queued, whatever keys are
    pressed. *)
Theorem no_stream_without_websockets :
  forall (hand_log0 : list MainLoop.Row) (rounds : list MainLoop.Round),
  let st := MainLoop.main false hand_log0 rounds in
  MainLoop.websocket_enabled st = false /\
  MainLoop.ws_threads st = 0%nat /\
  MainLoop.queued st = [].
Proof.
  intros log0 rounds st.
  assert (H : no_stream (MainLoop.loop false (MainLoop.setup false log0) rounds))
    by (apply MainLoopFacts.no_stream_loop; repeat split).
  unfold st, MainLoop.main, MainLoop.stop_csv.
  destruct (negb (MainLoop.csv_logging _)); exact H.
Qed.

(** X17. The rows logged for a frame: one per [index_tip] and one per
    [thumb_tip] the hands have.  Each row carries the time stamp and frame
    count of the round, the position of its hand in the list as
    [hand_id], the label of its tip with the tip's normalised position,
    and the [distance_norm] of its hand. *)
Theorem csv_rows_of_a_frame :
  forall (ts : Q) (frame_count : Z) (h w : positive) (hands : list HandInfo),
  let rows := MainLoop.csv_rows ts frame_count 0 (Main.norm_hands hands h w) in
  length rows
    = list_sum (map (fun i => count_some (index_tip i) + count_some (thumb_tip i))%nat
                    hands) /\
  Forall (fun row =>
            exists hi label x y i,
              row = MainLoop.Data ts frame_count hi label x y
                      (distance_norm (Main.ninfo i h w)) /\
              0 <= hi < Z.of_nat (length hands) /\
              nth_error hands (Z.to_nat hi) = Some i /\
              ((label = "index"%string /\
                index_norm (Main.ninfo i h w) = Some (x, y)) \/
               (label = "thumb"%string /\
                thumb_norm (Main.ninfo i h w) = Some (x, y))))
         rows.
Proof.
  intros ts fc h w hands rows.
  destruct (MainLoopFacts.csv_rows_spec ts fc h w hands 0) as [Hlen Hall].
  split; [exact Hlen|].
  eapply Forall_impl; [|exact Hall].
  intros row (hi & label & x & y & i & -> & Hhi & Hn & Hl).
  exists hi, label, x, y, i. rewrite Z.sub_0_r in Hn. repeat split; auto; lia.
Qed.

(** X18. The streamed payload has one entry per hand, in order, with the
    position of the hand as [hand_id]; a hand without [hand_size_norm]
    is reported with 0.0, and a hand without named fingertips with an
    empty [finger_dist_norm] and no pinch. *)
Theorem payload_of_a_frame :
  forall (h w : positive) (hands : list HandInfo),
  let ps := MainLoop.payload_hands 0 (Main.norm_hands hands h w) in
  length ps = length hands /\
  forall (j : nat) (i : HandInfo),
    nth_error hands j = Some i ->
    exists p,
      nth_error ps j = Some p /\
      MainLoop.hand_id p = Z.of_nat j /\
      MainLoop.p_distance_norm p = distance_norm (Main.ninfo i h w) /\
      MainLoop.p_side p = side (Main.ninfo i h w) /\
      (hand_size_norm i = None -> MainLoop.p_hand_size_norm p = dist_zero) /\
      (fingertips_named i = None ->
       MainLoop.p_finger_dist_norm p = [] /\
       MainLoop.p_pinch_finger p = None /\
       MainLoop.p_pinch_distance_norm p = None).
Proof.
  intros h w hands ps.
  destruct (MainLoopFacts.payload_hands_spec h w hands 0) as [Hlen Hnth].
  split; [exact Hlen|]. intros j i Hj.
  eexists. split; [exact (Hnth j i Hj)|].
  cbn [MainLoop.hand_payload MainLoop.hand_id MainLoop.p_distance_norm
       MainLoop.p_side MainLoop.p_hand_size_norm MainLoop.p_finger_dist_norm
       MainLoop.p_pinch_finger MainLoop.p_pinch_distance_norm].
  assert (Hinfo : info (Main.ninfo i h w) = i).
  { unfold Main.ninfo, Main.ninfo_with.
    destruct (thumb_tip i) as [t|]; [|reflexivity].
    destruct (fingertips_named i) as [[|kv named]|]; reflexivity. }
  rewrite Hinfo. repeat split.
  - now intros ->.
  - unfold Main.ninfo. rewrite MainFacts.ninfo_finger_dist_norm, H.
    now destruct (thumb_tip i).
  - unfold Main.ninfo.
    rewrite MainFacts.ninfo_pinch_finger, MainFacts.ninfo_finger_dist_norm, H.
    now destruct (thumb_tip i).
  - unfold Main.ninfo.
    rewrite MainFacts.ninfo_pinch_distance_norm, MainFacts.ninfo_pinch_finger,
      MainFacts.ninfo_finger_dist_norm, H.
    now destruct (thumb_tip i).
Qed.

(** ** Hulls that are already well separated *)

Module SpreadFacts.
Import OpenCVHandTracker.

Lemma all_apart_separated (l : list point) :
  all_apart l = true -> separated l.
Proof.
  induction l as [|p l IH]; intro H; [apply TipsFacts.separated_nil|].
  cbn [all_apart] in H. apply andb_true_iff in H. destruct H as [Hp Hl].
  rewrite forallb_forall in Hp. specialize (IH Hl).
  intros a b x y Hab Ha Hb. destruct a as [|a], b as [|b]; simpl in Ha, Hb.
  - congruence.
  - injection Ha as <-. apply Hp. eapply nth_error_In; eassumption.
  - injection Hb as <-. rewrite TipsFacts.apart_sym. apply Hp.
    eapply nth_error_In; eassumption.
  - apply (IH a b); auto.
Qed.

Lemma separated_snoc_inv (tips pts : list point) (p : point) :
  separated (tips ++ p :: pts) -> tips_step tips p = tips ++ [p].
Proof.
  intro Hsep. unfold tips_step. destruct tips as [|t tips]; [reflexivity|].
  replace (forallb (apart p) (t :: tips)) with true; [reflexivity|].
  symmetry. apply forallb_forall. intros q Hq.
  apply In_nth_error in Hq. destruct Hq as (a & Ha).
  assert (La : (a < length (t :: tips))%nat)
    by (apply nth_error_Some; congruence).
  apply (Hsep (length (t :: tips)) a).
  - lia.
  - rewrite nth_error_app2 by lia. now rewrite Nat.sub_diag.
  - now rewrite nth_error_app1.
Qed.

Lemma tips_loop_separated_input (pts tips : list point) :
  separated (tips ++ pts) -> (length tips < 5)%nat ->
  tips_loop pts tips = firstn 5 (tips ++ pts).
Proof.
  revert tips. induction pts as [|p pts IH]; intros tips Hsep Hlen.
  - rewrite app_nil_r. cbn [tips_loop]. now rewrite firstn_all2 by lia.
  - cbn [tips_loop]. rewrite (separated_snoc_inv tips pts p Hsep).
    replace (tips ++ p :: pts) with ((tips ++ [p]) ++ pts) in *
      by now rewrite <- app_assoc.
    destruct (Nat.leb 5 (length (tips ++ [p]))) eqn:E.
    + apply Nat.leb_le in E.
      assert (L : length (tips ++ [p]) = 5%nat).
      { rewrite length_app in *. cbn [length] in *. lia. }
      rewrite firstn_app, L, Nat.sub_diag, firstn_0, app_nil_r.
      rewrite <- L. symmetry. apply firstn_all.
    + apply Nat.leb_gt in E. now apply IH.
Qed.
End SpreadFacts.

(** X19. When the hull points are pairwise more than 25 pixels apart,
    none is dropped as a duplicate: the fingertips are the first 5 hull
    points in order of ascending y (all of them if there are at most 5). *)
Theorem separated_hull_gives_first_five :
  forall (cv : cv2) (c : Contour cv) (frame_shape : positive * positive),
  separated (hull_sorted cv c) ->
  exists i,
    OpenCVHandTracker._extract_hand_info_from_contour cv c frame_shape = Some i /\
    fingertips i = firstn 5 (hull_sorted cv c) /\
    length (fingertips i) = Nat.min 5 (length (convexHull c)).
Proof.
  intros cv c hw Hsep.
  destruct (TipsFacts.extract_spec cv c hw) as (i & Hi & Hf & _).
  exists i. split; [exact Hi|].
  assert (H : fingertips i = firstn 5 (hull_sorted cv c)).
  { rewrite Hf. apply (SpreadFacts.tips_loop_separated_input _ []);
      [exact Hsep | simpl; lia]. }
  split; [exact H|].
  rewrite H, length_firstn. unfold hull_sorted. now rewrite sorted_length.
Qed.

Lemma separated_hull_gives_first_five_witness :
  separated (hull_sorted Toy.cv Toy.spread) /\
  exists i,
    OpenCVHandTracker._extract_hand_info_from_contour
      Toy.cv Toy.spread (480%positive, 640%positive) = Some i /\
    fingertips i = firstn 5 (hull_sorted Toy.cv Toy.spread) /\
    length (fingertips i) = Nat.min 5 (length (convexHull (c := Toy.cv) Toy.spread)).
Proof.
  assert (H : separated (hull_sorted Toy.cv Toy.spread))
    by (apply SpreadFacts.all_apart_separated; reflexivity).
  split; [exact H|].
  exact (separated_hull_gives_first_five Toy.cv Toy.spread
           (480%positive, 640%positive) H).
Defined.

(** ** The hands the derivation stage is given *)

Module TrackerHands.

(** A hand of the landmark backend has a thumb tip and a dictionary of
    named fingertips. *)
Lemma hand_info_named (pts : list point) (h w : positive) (i : HandInfo) :
  MediaPipeHandTracker.hand_info pts h w = Some i ->
  exists t named,
    thumb_tip i = Some t /\ fingertips_named i = Some named /\
    NoDup (keys named).
Proof.
  intro H.
  destruct (Nat.lt_ge_cases (length pts) 21) as [Hlt|Hge].
  - apply MediaPipeMore.hand_info_None with (h := h) (w := w) in Hlt.
    congruence.
  - do 21 (destruct pts as [|? pts]; [simpl in Hge; lia|]).
    cbn in H. injection H as <-.
    do 2 eexists. split; [reflexivity|]. split; [reflexivity|].
    repeat constructor; simpl; intuition discriminate.
Qed.

Lemma process_loop_named (lms : list (list (Q * Q))) (h w : positive)
    (hands_out hands : list HandInfo) (i : HandInfo) :
  MediaPipeHandTracker.process_loop lms h w hands_out = Some hands ->
  In i hands ->
  In i hands_out \/
  exists pts, MediaPipeHandTracker.hand_info pts h w = Some i.
Proof.
  revert hands_out. induction lms as [|lm lms IH]; intros hands_out; simpl.
  - intros [= <-] Hin. now left.
  - destruct (MediaPipeHandTracker.hand_info _ h w) as [i0|] eqn:E;
      cbn [bind]; [|discriminate].
    intros H Hin. destruct (IH _ H Hin) as [Hin'|Hex]; [|now right].
    apply in_app_or in Hin'. destruct Hin' as [Hin'|[<-|[]]]; [now left|].
    right. eauto.
Qed.

(** A hand of the heuristic backend names no fingertip. *)
Lemma heuristic_hand_unnamed (cv : cv2) (self self' : OpenCVHandTracker.t)
    (frame : Frame cv) (hands : list HandInfo) (i : HandInfo) :
  OpenCVHandTracker.process cv self frame = Some (hands, self') ->
  In i hands -> fingertips_named i = None.
Proof.
  intros Hp Hin.
  destruct (ProcessFacts.process_spec cv self frame) as (hands0 & Hf & Hp0).
  rewrite Hp in Hp0. injection Hp0 as -> _.
  destruct (shape frame) as [h w].
  assert (Hex : exists c,
            OpenCVHandTracker._extract_hand_info_from_contour cv c (h, w)
            = Some i).
  { clear -Hf Hin. induction Hf as [|c i0 cs infos Hc _ IH]; [destruct Hin|].
    destruct Hin as [<-|Hin]; [now exists c | auto]. }
  destruct Hex as (c & Hc).
  destruct (ExtractMore.extract_fields cv c h w)
    as (i' & Hi' & _ & _ & Hnamed & _).
  congruence.
Qed.
End TrackerHands.

(** C5. For every hand the derivation stage is given, that is every
    hand returned by a tracker's [process], whose [fingertips_named] has
    at least one entry other than the thumb: the hand has a [thumb_tip]
    and the derived [finger_dist_norm] has exactly one entry per named
    finger other than the thumb, in the order of [fingertips_named]; the
    entry of a finger is the Euclidean distance of its tip to [thumb_tip]
    divided by the frame diagonal, a non-negative number. *)
Theorem finger_dist_norm_of_tracker_hands :
  forall (i : HandInfo) (h w : positive) (named : dict point),
  tracker_hand i ->
  fingertips_named i = Some named ->
  (exists f, In f (keys named) /\ f <> thumb) ->
  exists t m,
    thumb_tip i = Some t /\
    finger_dist_norm (Main.ninfo i h w) = Some m /\
    m <> [] /\
    keys m = filter non_thumb (keys named) /\
    NoDup (keys m) /\
    (forall f, In f (keys m) <-> In f (keys named) /\ f <> thumb) /\
    (forall f pt, In (f, pt) named -> f <> thumb ->
       exists v, dict_get f m = Some v /\
                 dist2R v = (euclid pt t / dist2R (frame_diag h w))%R /\
                 (0 <= dist2R v)%R).
Proof.
  intros i h w named Hi Hnamed Hf.
  assert (H : exists t, thumb_tip i = Some t /\ NoDup (keys named)).
  { destruct Hi as [(lms & h0 & w0 & hands & Hp & Hin)
                   |(cv & self & frame & hands & self' & Hp & Hin)].
    - destruct (TrackerHands.process_loop_named _ _ _ _ _ _ Hp Hin)
        as [[]|(pts & Hpts)].
      destruct (TrackerHands.hand_info_named _ _ _ _ Hpts)
        as (t & named' & Ht & Hn & Hnd).
      exists t. split; [exact Ht|]. congruence.
    - pose proof (TrackerHands.heuristic_hand_unnamed _ _ _ _ _ _ Hp Hin).
      congruence. }
  destruct H as (t & Ht & Hnd).
  destruct (finger_dist_norm_entries i h w t named Ht Hnamed Hnd Hf)
    as (m & Hm).
  exists t, m. split; [exact Ht | exact Hm].
Qed.

Lemma finger_dist_norm_of_tracker_hands_witness :
  tracker_hand Toy.landmark_hand /\
  fingertips_named Toy.landmark_hand = Some Toy.landmark_named /\
  (exists f, In f (keys Toy.landmark_named) /\ f <> thumb) /\
  exists t m,
    thumb_tip Toy.landmark_hand = Some t /\
    finger_dist_norm (Main.ninfo Toy.landmark_hand 480 640) = Some m /\
    m <> [] /\
    keys m = filter non_thumb (keys Toy.landmark_named) /\
    NoDup (keys m) /\
    (forall f, In f (keys m) <-> In f (keys Toy.landmark_named) /\ f <> thumb) /\
    (forall f pt, In (f, pt) Toy.landmark_named -> f <> thumb ->
       exists v, dict_get f m = Some v /\
                 dist2R v = (euclid pt t / dist2R (frame_diag 480 640))%R /\
                 (0 <= dist2R v)%R).
Proof.
  assert (H1 : tracker_hand Toy.landmark_hand).
  { left. exists [Toy.lm21], 480%positive, 640%positive, [Toy.landmark_hand].
    split; [reflexivity | now left]. }
  assert (H2 : fingertips_named Toy.landmark_hand = Some Toy.landmark_named)
    by reflexivity.
  assert (H3 : exists f, In f (keys Toy.landmark_named) /\ f <> thumb).
  { exists index. split; [simpl; auto | discriminate]. }
  repeat (split; [assumption|]).
  exact (finger_dist_norm_of_tracker_hands Toy.landmark_hand 480 640
           Toy.landmark_named H1 H2 H3).
Defined.
